(** * The Python / Ruby comparison harness of [examples/compare_outputs.py]

    A shallow embedding of the harness: the two generation paths
    ([generate_python], [generate_ruby]), the per-prompt loop of
    [compare_outputs] and the top-level handler of the [__main__] block,
    together with the library functions they rely on
    ([os.path.commonprefix], [str.strip], [repr]).

    Python strings are sequences of Unicode code points, so [str] is a
    list of code points; the effects of the script (printing, calls to
    the nanochat collaborators, the child process) are threaded through
    a state-and-exception monad that records an event trace.  Writing
    to the standard output is taken to succeed. *)

From Stdlib Require Import List NArith ZArith Bool Lia Ascii String DecimalString.
Import ListNotations.

(** ** Python strings *)

Module PyStr.

Definition char := N.
Definition str := list char.

(** An ASCII literal of the source, as a Python string. *)
Fixpoint lit (s : string) : str :=
  match s with
  | EmptyString => []
  | String c s' => N_of_ascii c :: lit s'
  end.

Definition len (s : str) : nat := List.length s.

(** [s1 < s2] on Python strings: lexicographic on code points. *)
Fixpoint ltb (s1 s2 : str) : bool :=
  match s1, s2 with
  | [], [] => false
  | [], _ :: _ => true
  | _ :: _, [] => false
  | c :: r1, d :: r2 =>
      if N.ltb c d then true
      else if N.eqb c d then ltb r1 r2
      else false
  end.

(** [min(m)] and [max(m)] on a non-empty list of strings: the first
    smallest (largest) element, as the builtins return it. *)
Fixpoint min_from (best : str) (m : list str) : str :=
  match m with
  | [] => best
  | s :: m' => min_from (if ltb s best then s else best) m'
  end.

Fixpoint max_from (best : str) (m : list str) : str :=
  match m with
  | [] => best
  | s :: m' => max_from (if ltb best s then s else best) m'
  end.

(** [str.isspace] on one code point: the characters [str.strip()]
    removes. *)
Definition isspace (c : char) : bool :=
  ((9 <=? c) && (c <=? 13) || (28 <=? c) && (c <=? 32)
   || (c =? 133) || (c =? 160) || (c =? 5760)
   || (8192 <=? c) && (c <=? 8202)
   || (c =? 8232) || (c =? 8233) || (c =? 8239) || (c =? 8287)
   || (c =? 12288))%N.

Fixpoint lstrip (s : str) : str :=
  match s with
  | [] => []
  | c :: s' => if isspace c then lstrip s' else s
  end.

Definition rstrip (s : str) : str := rev (lstrip (rev s)).

(** [s.strip()] *)
Definition strip (s : str) : str := rstrip (lstrip s).

(** *** [repr] of a string *)

Definition hex_digit (d : N) : char :=
  (if d <? 10 then 48 + d else 87 + d)%N.

(** [width] lower-case hexadecimal digits of [c], most significant first. *)
Fixpoint hex (width : nat) (c : N) : str :=
  match width with
  | O => []
  | S w => hex w (c / 16) ++ [hex_digit (c mod 16)]
  end.

Section Repr.

(** [str.isprintable] on a code point above the ASCII range comes from
    the Unicode character database, which the script does not carry. *)
Variable isprintable_nonascii : char -> bool.

Definition quote_of (s : str) : char :=
  if existsb (N.eqb 39) s && negb (existsb (N.eqb 34) s) then 34%N else 39%N.

Definition repr_char (quote c : char) : str :=
  if (c =? quote)%N || (c =? 92)%N then [92%N; c]
  else if (c =? 9)%N then lit "\t"
  else if (c =? 10)%N then lit "\n"
  else if (c =? 13)%N then lit "\r"
  else if (c <? 32)%N || (c =? 127)%N then lit "\x" ++ hex 2 c
  else if (c <? 127)%N then [c]
  else if isprintable_nonascii c then [c]
  else if (c <=? 255)%N then lit "\x" ++ hex 2 c
  else if (c <=? 65535)%N then lit "\u" ++ hex 4 c
  else lit "\U" ++ hex 8 c.

Definition repr (s : str) : str :=
  let q := quote_of s in
  [q] ++ flat_map (repr_char q) s ++ [q].

End Repr.

End PyStr.

Import PyStr.

(** ** Exceptions and results *)

(** The argument of [sys.exit]: nothing, an integer status, or any other
    object, which is printed. *)
Inductive exit_arg : Type :=
| ExitNone
| ExitInt (status : Z)
| ExitText (msg : str).

(** Exceptions, as far as the handlers of the script and the interpreter
    tell them apart.  [subprocess.TimeoutExpired] is an [Exception];
    [KeyboardInterrupt], [SystemExit] and the remaining classes that
    derive from [BaseException] directly ([GeneratorExit], ...) are not,
    so an [except Exception] clause lets them through. *)
Inductive exn : Type :=
| KeyboardInterrupt
| TimeoutExpired
| Exception (msg : str)
| SystemExit (arg : exit_arg)
| BaseException (msg : str).

(** [isinstance(e, Exception)] *)
Definition is_Exception (e : exn) : bool :=
  match e with
  | TimeoutExpired | Exception _ => true
  | KeyboardInterrupt | SystemExit _ | BaseException _ => false
  end.

Inductive result (A : Type) : Type :=
| Ret (a : A)
| Raise (e : exn).

Arguments Ret {A} a.
Arguments Raise {A} e.

Definition IndexError : exn := Exception (lit "string index out of range").

(** ** [os.path.commonprefix] *)

(** The loop [for i, c in enumerate(s1): if c != s2[i]: return s1[:i]],
    followed by [return s1]; [todo] is what is left of [s1] from index
    [i] on.  Indexing [s2] out of range raises. *)
Fixpoint commonprefix_loop (s1 s2 : str) (i : nat) (todo : str) : result str :=
  match todo with
  | [] => Ret s1
  | c :: todo' =>
      match nth_error s2 i with
      | None => Raise IndexError
      | Some d =>
          if negb (N.eqb c d) then Ret (firstn i s1)
          else commonprefix_loop s1 s2 (S i) todo'
      end
  end.

Definition commonprefix (m : list str) : result str :=
  match m with
  | [] => Ret []
  | s :: m' =>
      let s1 := min_from s m' in
      let s2 := max_from s m' in
      commonprefix_loop s1 s2 0 s1
  end.

(** The glossary's common prefix length: the length of the longest
    leading substring shared by two strings, compared character by
    character from the start. *)
Fixpoint common_prefix_length (a b : str) : nat :=
  match a, b with
  | c :: a', d :: b' => if N.eqb c d then S (common_prefix_length a' b') else 0
  | _, _ => 0
  end.

(** ** Numbers interpolated into the Ruby script *)

(** [str(n)] for an [int]. *)
Definition str_of_int (n : Z) : str :=
  lit (DecimalString.NilZero.string_of_int (Z.to_int n)).

(** A [float] is held as the digits of its shortest [repr], which is how
    the script writes it and how the f-string prints it: [0.8] is
    [{| whole := 0; frac := 8 |}] in decimal digits. *)
Record pyfloat : Type := mkfloat {
  whole : Decimal.int;
  frac : Decimal.uint
}.

Definition str_of_float (x : pyfloat) : str :=
  lit (DecimalString.NilZero.string_of_int (whole x))
  ++ lit "." ++ lit (DecimalString.NilEmpty.string_of_uint (frac x)).

Definition float_0_8 : pyfloat :=
  mkfloat (Decimal.Pos (Decimal.D0 Decimal.Nil)) (Decimal.D8 Decimal.Nil).

Definition float_0_95 : pyfloat :=
  mkfloat (Decimal.Pos (Decimal.D0 Decimal.Nil))
          (Decimal.D9 (Decimal.D5 Decimal.Nil)).

(** ** Observable events *)

(** [subprocess.CompletedProcess], with [capture_output=True, text=True]. *)
Record CompletedProcess : Type := mkCompleted {
  returncode : Z;
  stdout : str;
  stderr : str
}.

(** One constructor per [print] of the script, one for a traceback and
    one for the message of [sys.exit(text)]; the last two go to the error
    stream, and the interpreter writes them for what no handler took. *)
Inductive line : Type :=
| CheckpointNotFound (path : str)
| RubyError (err : str)
| RubyTimedOut
| RubyExecutionFailed (e : exn)
| Banner
| RuleEq
| RuleDash
| Blank
| TestHeader (i n : nat) (prompt : str)
| PythonLabel
| RubyLabel
| OutputText (output : option str)
| Failed
| SharePrefix (chars : nat)
| DivergeImmediately
| PythonLength (chars : nat)
| RubyLength (chars : nat)
| InterruptedByUser
| ErrorLine (e : exn)
| Traceback (e : exn)
| ExitMessage (msg : str).

(** Calls that leave the script. *)
Inductive call : Type :=
| CallExists (path : str)
| CallGetTokenizer
| CallFromCheckpoint (path : str)
| CallGetDevice
| CallEngine
| CallGenerate (prompt : str) (max_tokens : Z) (temperature top_p : pyfloat)
| CallRun (argv : list str) (timeout : Z).

Inductive event : Type :=
| Print (l : line)
| Call (c : call).

Definition trace := list event.

(** ** The host: interpreter, file system, nanochat and the Ruby child *)

Record Host : Type := mkHost {
  World : Type;
  Tokenizer : Type;
  GPT : Type;
  Device : Type;
  EngineT : Type;
  (** [str(Path.home())] *)
  Path_home : str;
  isprintable_nonascii : char -> bool;
  Path_exists : str -> World -> result bool * World;
  get_tokenizer : World -> result Tokenizer * World;
  GPT_from_checkpoint : str -> World -> result GPT * World;
  get_device : World -> result Device * World;
  Engine : GPT -> Tokenizer -> Device -> World -> result EngineT * World;
  Engine_generate :
    EngineT -> str -> Z -> pyfloat -> pyfloat -> World -> result str * World;
  subprocess_run : list str -> Z -> World -> result CompletedProcess * World
}.

(** ** The effect monad: world state, exceptions, event trace *)

Module Eff.

Section WithWorld.

Variable W : Type.

Definition M (A : Type) : Type := W -> result A * W * trace.

Definition ret {A} (a : A) : M A := fun w => (Ret a, w, []).

Definition raise {A} (e : exn) : M A := fun w => (Raise e, w, []).

Definition bind {A B} (m : M A) (k : A -> M B) : M B :=
  fun w =>
    match m w with
    | (Ret a, w1, t1) =>
        match k a w1 with
        | (r, w2, t2) => (r, w2, t1 ++ t2)
        end
    | (Raise e, w1, t1) => (Raise e, w1, t1)
    end.

(** A pure computation that may raise. *)
Definition lift {A} (r : result A) : M A := fun w => (r, w, []).

Definition print (l : line) : M unit := fun w => (Ret tt, w, [Print l]).

(** A call to the host; the call is recorded before its outcome. *)
Definition invoke {A} (c : call) (f : W -> result A * W) : M A :=
  fun w => match f w with (r, w1) => (r, w1, [Call c]) end.

(** [try: m  except ...: h e]; [h e = None] when no clause matches. *)
Definition try_except {A} (m : M A) (h : exn -> option (M A)) : M A :=
  fun w =>
    match m w with
    | (Ret a, w1, t1) => (Ret a, w1, t1)
    | (Raise e, w1, t1) =>
        match h e with
        | None => (Raise e, w1, t1)
        | Some k =>
            match k w1 with
            | (r, w2, t2) => (r, w2, t1 ++ t2)
            end
        end
    end.

End WithWorld.

Arguments ret {W A} a.
Arguments raise {W A} e.
Arguments bind {W A B} m k.
Arguments lift {W A} r.
Arguments print {W} l.
Arguments invoke {W A} c f.
Arguments try_except {W A} m h.

End Eff.

Import Eff.

Declare Scope eff_scope.
Delimit Scope eff_scope with eff.
Notation "x <- m ;; k" := (bind m (fun x => k))
  (at level 61, m at next level, right associativity) : eff_scope.
Notation "m ;; k" := (bind m (fun _ => k))
  (at level 61, right associativity) : eff_scope.
Open Scope eff_scope.

Definition outcome (W A : Type) (x : result A * W * trace) : result A :=
  fst (fst x).
Definition final_world (W A : Type) (x : result A * W * trace) : W :=
  snd (fst x).
Definition events (W A : Type) (x : result A * W * trace) : trace := snd x.
Arguments outcome {W A} x.
Arguments final_world {W A} x.
Arguments events {W A} x.

(** ** The harness *)

Definition newline : char := 10%N.

(** Every line followed by a line feed. *)
Definition unlines (ls : list str) : str :=
  flat_map (fun l => l ++ [newline]) ls.

Definition test_prompts : list str :=
  [ lit "Once upon a time";
    lit "The meaning of life is";
    lit "Hello, how are you?" ].

(** How the interpreter ends on [SystemExit(arg)]: no argument is
    status 0, an integer is the status (its low eight bits), any other
    object is printed and the status is 1. *)
Definition status_of_exit (arg : exit_arg) : Z :=
  match arg with
  | ExitNone => 0%Z
  | ExitInt status => (status mod 256)%Z
  | ExitText _ => 1%Z
  end.

Definition message_of_exit (arg : exit_arg) : trace :=
  match arg with
  | ExitText msg => [Print (ExitMessage msg)]
  | _ => []
  end.

Section Harness.

Variable H : Host.

Local Notation "'M'" := (Eff.M (World H)).

(** [Path.home() / ".cache" / "nanochat" / "model.pt"] *)
Definition checkpoint_path : str :=
  Path_home H ++ lit "/.cache/nanochat/model.pt".

Definition generate_python
    (prompt : str) (max_tokens : Z) (temperature : pyfloat) : M (option str) :=
  present <- invoke (CallExists checkpoint_path) (Path_exists H checkpoint_path) ;;
  if negb present then
    print (CheckpointNotFound checkpoint_path) ;;
    ret None
  else
    tokenizer <- invoke CallGetTokenizer (get_tokenizer H) ;;
    model <- invoke (CallFromCheckpoint checkpoint_path)
                    (GPT_from_checkpoint H checkpoint_path) ;;
    device <- invoke CallGetDevice (get_device H) ;;
    engine <- invoke CallEngine (Engine H model tokenizer device) ;;
    text <- invoke (CallGenerate prompt max_tokens temperature float_0_95)
                   (Engine_generate H engine prompt max_tokens temperature
                                    float_0_95) ;;
    ret (Some text).

(** The f-string of [generate_ruby]: the Ruby program, with the prompt,
    [max_tokens] and [temperature] interpolated. *)
Definition script_lines (prompt : str) (max_tokens : Z) (temperature : pyfloat)
  : list str :=
    [ lit "";
      lit "require 'bundler/setup'";
      lit "require 'nanochat'";
      lit "";
      lit "checkpoint_path = File.expand_path('~/.cache/nanochat/model.pt')";
      lit "tokenizer_dir = File.expand_path('~/.cache/nanochat/tokenizer')";
      lit "";
      lit "config = Nanochat::Config.new(";
      lit "  vocab_size: 50_257,";
      lit "  n_embd: 768,";
      lit "  n_layer: 20,";
      lit "  n_head: 12,";
      lit "  n_kv_head: 4,";
      lit "  block_size: 1024";
      lit ")";
      lit "";
      lit "model = Nanochat::GPT.from_checkpoint(checkpoint_path, config)";
      lit "tokenizer = Nanochat::Tokenizer.from_directory(tokenizer_dir)";
      lit "engine = Nanochat::Engine.new(model, tokenizer)";
      lit "";
      lit "response = engine.generate(";
      lit "  " ++ repr (isprintable_nonascii H) prompt ++ lit ",";
      lit "  max_tokens: " ++ str_of_int max_tokens ++ lit ",";
      lit "  temperature: " ++ str_of_float temperature ++ lit ",";
      lit "  top_p: 0.95";
      lit ")";
      lit "";
      lit "puts response" ].

Definition script (prompt : str) (max_tokens : Z) (temperature : pyfloat) : str :=
  unlines (script_lines prompt max_tokens temperature).

Definition ruby_argv (prompt : str) (max_tokens : Z) (temperature : pyfloat)
  : list str :=
  [ lit "ruby"; lit "-e"; script prompt max_tokens temperature ].

(** The [except] clauses of [generate_ruby], in order:
    [subprocess.TimeoutExpired], then [Exception]. *)
Definition ruby_handlers (e : exn) : option (M (option str)) :=
  match e with
  | TimeoutExpired => Some (print RubyTimedOut ;; ret None)
  | Exception _ => Some (print (RubyExecutionFailed e) ;; ret None)
  | KeyboardInterrupt | SystemExit _ | BaseException _ => None
  end.

Definition generate_ruby
    (prompt : str) (max_tokens : Z) (temperature : pyfloat) : M (option str) :=
  let argv := ruby_argv prompt max_tokens temperature in
  try_except
    (result <- invoke (CallRun argv 60) (subprocess_run H argv 60) ;;
     if negb (returncode result =? 0)%Z then
       print (RubyError (stderr result)) ;;
       ret None
     else
       ret (Some (strip (stdout result))))
    ruby_handlers.

(** Truth value of what a generation returned: [None] and the empty
    string are false. *)
Definition truthy (output : option str) : bool :=
  match output with
  | Some (_ :: _) => true
  | _ => false
  end.

Definition TypeError : exn := Exception (lit "NoneType").

(** [print(f"  {output}")] or [print("  (failed)")]. *)
Definition report_output (output : option str) : M unit :=
  if truthy output then print (OutputText output) else print Failed.

(** The block under [# Analysis]. *)
Definition analysis (prompt : str) (python_output ruby_output : option str)
  : M unit :=
  if truthy python_output && truthy ruby_output then
    match python_output, ruby_output with
    | Some a, Some b =>
        common_prefix <- lift (commonprefix [a; b]) ;;
        (if len prompt <? len common_prefix
         then print (SharePrefix (len common_prefix))
         else print DivergeImmediately) ;;
        print (PythonLength (len a)) ;;
        print (RubyLength (len b))
    | _, _ => raise TypeError
    end
  else ret tt.

(** One iteration of the [for] loop: prompt number [i] of [n]. *)
Definition compare_prompt (n i : nat) (prompt : str) : M unit :=
  print (TestHeader i n prompt) ;;
  print RuleDash ;;
  print PythonLabel ;;
  python_output <- generate_python prompt 50 float_0_8 ;;
  report_output python_output ;;
  print Blank ;;
  print RubyLabel ;;
  ruby_output <- generate_ruby prompt 50 float_0_8 ;;
  report_output ruby_output ;;
  print Blank ;;
  analysis prompt python_output ruby_output ;;
  print Blank ;;
  print RuleEq ;;
  print Blank.

(** [for i, prompt in enumerate(prompts, i)] *)
Fixpoint compare_loop (n i : nat) (prompts : list str) : M unit :=
  match prompts with
  | [] => ret tt
  | prompt :: rest =>
      compare_prompt n i prompt ;;
      compare_loop n (S i) rest
  end.

Definition compare_outputs : M unit :=
  print Banner ;;
  print RuleEq ;;
  print Blank ;;
  compare_loop (List.length test_prompts) 1 test_prompts.

(** The [__main__] block: the exit status of the process, the final
    world and everything that was printed or called.  The two [except]
    clauses end with [sys.exit(1)].  What they let through reaches the
    interpreter: a [SystemExit] ends the process with the status it
    carries, anything else with a traceback and status 1. *)
Definition main (w : World H) : Z * World H * trace :=
  match compare_outputs w with
  | (Ret _, w1, t) => (0%Z, w1, t)
  | (Raise KeyboardInterrupt, w1, t) =>
      (1%Z, w1, t ++ [Print InterruptedByUser])
  | (Raise (TimeoutExpired as e), w1, t)
  | (Raise (Exception _ as e), w1, t) =>
      (1%Z, w1, t ++ [Print (ErrorLine e); Print (Traceback e)])
  | (Raise (SystemExit arg), w1, t) =>
      (status_of_exit arg, w1, t ++ message_of_exit arg)
  | (Raise (BaseException _ as e), w1, t) =>
      (1%Z, w1, t ++ [Print (Traceback e)])
  end.

Definition exit_code (w : World H) : Z := fst (fst (main w)).

End Harness.

(** ** Reading a trace *)

Definition is_agreement (ev : event) : bool :=
  match ev with
  | Print (SharePrefix _) => true
  | _ => false
  end.

(** The run printed the "share common prefix" line. *)
Definition reports_agreement (t : trace) : bool := existsb is_agreement t.

Definition is_comparison (ev : event) : bool :=
  match ev with
  | Print (SharePrefix _) | Print DivergeImmediately
  | Print (PythonLength _) | Print (RubyLength _) => true
  | _ => false
  end.

(** The prompts whose iteration was started, in the order of the trace. *)
Fixpoint attempted (t : trace) : list str :=
  match t with
  | [] => []
  | Print (TestHeader _ _ prompt) :: t' => prompt :: attempted t'
  | _ :: t' => attempted t'
  end.

Definition is_run (ev : event) : bool :=
  match ev with
  | Call (CallRun _ _) => true
  | _ => false
  end.

Definition is_collaborator (ev : event) : bool :=
  match ev with
  | Call CallGetTokenizer | Call (CallFromCheckpoint _) | Call CallGetDevice
  | Call CallEngine | Call (CallGenerate _ _ _ _) => true
  | _ => false
  end.

(** How the child process can fail in a way [generate_ruby] handles: a
    non-zero exit status, a timeout, or any other [Exception]. *)
Definition ruby_fails (r : result CompletedProcess) : bool :=
  match r with
  | Ret done => negb (returncode done =? 0)%Z
  | Raise e => is_Exception e
  end.

(** The line [generate_ruby] prints for such a failure. *)
Definition ruby_diagnostic (r : result CompletedProcess) : line :=
  match r with
  | Ret done => RubyError (stderr done)
  | Raise TimeoutExpired => RubyTimedOut
  | Raise e => RubyExecutionFailed e
  end.

(** What the handlers of [__main__] print for the exception they took. *)
Definition error_report (e : exn) : trace :=
  match e with
  | KeyboardInterrupt => [Print InterruptedByUser]
  | _ => [Print (ErrorLine e); Print (Traceback e)]
  end.

(** Status and last output of the process when [e] leaves
    [compare_outputs]. *)
Definition final_status (e : exn) : Z :=
  match e with
  | SystemExit arg => status_of_exit arg
  | _ => 1%Z
  end.

Definition final_report (e : exn) : trace :=
  match e with
  | SystemExit arg => message_of_exit arg
  | BaseException _ => [Print (Traceback e)]
  | _ => error_report e
  end.

(** ** Sample hosts *)

(** [str.isprintable] as it is on Latin-1: the C1 controls, the
    no-break space and the soft hyphen are not printable.  Beyond
    Latin-1 the sample takes every character as printable. *)
Definition sample_isprintable (c : char) : bool :=
  negb ((128 <=? c) && (c <=? 160) || (c =? 173))%N.

(** A host whose world counts the calls made to it.  The checkpoint is
    there or not ([present]); [tokenizer] is what [get_tokenizer] does;
    [engine] is the text Implementation A generates and [child] what
    running the Ruby child does. *)
Definition counting_host
    (present : bool) (tokenizer : result unit)
    (engine : str -> result str)
    (child : list str -> result CompletedProcess) : Host :=
  {| World := nat;
     Tokenizer := unit;
     GPT := unit;
     Device := unit;
     EngineT := unit;
     Path_home := lit "/home/user";
     isprintable_nonascii := sample_isprintable;
     Path_exists := fun _ w => (Ret present, S w);
     get_tokenizer := fun w => (tokenizer, S w);
     GPT_from_checkpoint := fun _ w => (Ret tt, S w);
     get_device := fun w => (Ret tt, S w);
     Engine := fun _ _ _ w => (Ret tt, S w);
     Engine_generate := fun _ prompt _ _ _ w => (engine prompt, S w);
     subprocess_run := fun argv _ w => (child argv, S w) |}.

Definition echo_there (prompt : str) : result str :=
  Ret (prompt ++ lit " there was").

(** The child prints its answer with [puts], so a line feed follows it. *)
Definition child_says (answer : str) (argv : list str) : result CompletedProcess :=
  Ret (mkCompleted 0 (answer ++ [newline]) []).

(** No checkpoint; the child answers. *)
Definition host_no_checkpoint : Host :=
  counting_host false (Ret tt) echo_there
                (child_says (lit "Once upon a time there was")).

(** The checkpoint is there but the tokenizer cannot be loaded. *)
Definition host_tokenizer_fails : Host :=
  counting_host true (Raise (Exception (lit "tokenizer.pkl not found")))
                echo_there (child_says (lit "Once upon a time there was")).



(** Both sides answer. *)
Definition host_both_answer : Host :=
  counting_host true (Ret tt) echo_there
                (child_says (lit "Once upon a time there lived")).

(** Implementation A answers, the child times out. *)
Definition host_ruby_timeout : Host :=
  counting_host true (Ret tt) echo_there (fun _ => Raise TimeoutExpired).

(** No checkpoint and the child exits with status 1. *)
Definition host_all_fail : Host :=
  counting_host false (Ret tt) echo_there
                (fun _ => Ret (mkCompleted 1 [] (lit "cannot load such file -- nanochat"))).

(** The child succeeds but prints only white space. *)
Definition host_ruby_blank : Host :=
  counting_host true (Ret tt) echo_there (child_says (lit "  ")).

Definition str_eqb (a b : str) : bool :=
  if list_eq_dec N.eq_dec a b then true else false.

(** Implementation A fails on the second prompt only. *)
Definition host_engine_fails_second : Host :=
  counting_host true (Ret tt)
    (fun prompt =>
       if str_eqb prompt (lit "The meaning of life is")
       then Raise (Exception (lit "CUDA out of memory"))
       else echo_there prompt)
    (child_says (lit "Once upon a time there lived")).

(** ** Summaries used to state the properties *)

(** What [generate_ruby] returns for each way [subprocess.run] can end. *)
Definition ruby_result (r : result CompletedProcess) : result (option str) :=
  match r with
  | Ret done =>
      if (returncode done =? 0)%Z then Ret (Some (strip (stdout done)))
      else Ret None
  | Raise e => if is_Exception e then Ret None else Raise e
  end.

(** The lines of the analysis block when both outputs are non-empty
    strings, none otherwise. *)
Definition comparison_report (prompt : str) (python_output ruby_output : option str)
  : trace :=
  match python_output, ruby_output with
  | Some ((_ :: _) as a), Some ((_ :: _) as b) =>
      [ Print (if len prompt <? common_prefix_length a b
               then SharePrefix (common_prefix_length a b)
               else DivergeImmediately);
        Print (PythonLength (len a));
        Print (RubyLength (len b)) ]
  | _, _ => []
  end.

(** The line that shows one side's output. *)
Definition output_line (output : option str) : line :=
  match output with
  | Some (_ :: _) => OutputText output
  | _ => Failed
  end.

(** The events [generate_python] can produce: the file-system query,
    the missing-checkpoint message, or a collaborator call; its only
    [generate] call carries the arguments it was given and [top_p=0.95]. *)
Definition python_event (H : Host) (prompt : str) (max_tokens : Z)
    (temperature : pyfloat) (ev : event) : Prop :=
  ev = Call (CallExists (checkpoint_path H))
  \/ ev = Print (CheckpointNotFound (checkpoint_path H))
  \/ ev = Call CallGetTokenizer
  \/ ev = Call (CallFromCheckpoint (checkpoint_path H))
  \/ ev = Call CallGetDevice
  \/ ev = Call CallEngine
  \/ ev = Call (CallGenerate prompt max_tokens temperature float_0_95).

(** What one iteration prints around the two generations. *)
Definition step_head (n i : nat) (prompt : str) : trace :=
  [Print (TestHeader i n prompt); Print RuleDash; Print PythonLabel].

Definition step_middle (python_output : option str) : trace :=
  [Print (output_line python_output); Print Blank; Print RubyLabel].

Definition step_tail (prompt : str) (python_output ruby_output : option str)
  : trace :=
  [Print (output_line ruby_output); Print Blank]
  ++ comparison_report prompt python_output ruby_output
  ++ [Print Blank; Print RuleEq; Print Blank].






(** ** Further readings of a trace *)

Definition is_exists (ev : event) : bool :=
  match ev with
  | Call (CallExists _) => true
  | _ => false
  end.

(** A call made on behalf of Implementation A: the file-system query or
    one of the nanochat collaborators. *)
Definition is_python_call (ev : event) : bool :=
  is_exists ev || is_collaborator ev.

(** The calls of [generate_python] when nothing fails, in program order. *)
Definition python_calls (H : Host) (prompt : str) (max_tokens : Z)
    (temperature : pyfloat) : trace :=
  [ Call (CallExists (checkpoint_path H));
    Call CallGetTokenizer;
    Call (CallFromCheckpoint (checkpoint_path H));
    Call CallGetDevice;
    Call CallEngine;
    Call (CallGenerate prompt max_tokens temperature float_0_95) ].

(** A printable ASCII character other than the single quote and the
    backslash. *)
Definition plain_printable (c : char) : bool :=
  ((32 <=? c) && (c <? 127) && negb (c =? 39) && negb (c =? 92))%N.

(** Implementation A answers; the child is interrupted from the
    keyboard. *)
Definition host_ruby_interrupted : Host :=
  counting_host true (Ret tt) echo_there (fun _ => Raise KeyboardInterrupt).

(** The number of line feeds of a text. *)
Definition count_newlines (s : str) : nat :=
  List.length (filter (N.eqb newline) s).

(** * Properties *)

(** ** The common prefix *)

Section CommonPrefix.

Lemma ltb_irrefl (s : str) : ltb s s = false.
Proof.
  induction s as [|c s IH]; simpl; [reflexivity|].
  rewrite N.ltb_irrefl, N.eqb_refl. exact IH.
Qed.

Lemma ltb_asym (s1 s2 : str) : ltb s1 s2 = true -> ltb s2 s1 = false.
Proof.
  revert s2; induction s1 as [|c r1 IH]; intros [|d r2]; simpl;
    try discriminate; try reflexivity.
  destruct (N.ltb_spec c d) as [Hcd|Hcd].
  - intros _. destruct (N.ltb_spec d c); [lia|].
    destruct (N.eqb_spec d c); [lia|reflexivity].
  - destruct (N.eqb_spec c d) as [->|Hne]; [|discriminate].
    rewrite N.ltb_irrefl, N.eqb_refl. apply IH.
Qed.

(** Neither string below the other: they are the same string. *)
Lemma ltb_total (s1 s2 : str) :
  ltb s1 s2 = false -> ltb s2 s1 = false -> s1 = s2.
Proof.
  revert s2; induction s1 as [|c r1 IH]; intros [|d r2]; simpl;
    try discriminate; try reflexivity.
  destruct (N.ltb_spec c d) as [Hcd|Hcd]; [discriminate|].
  destruct (N.eqb_spec c d) as [->|Hne].
  - rewrite N.ltb_irrefl, N.eqb_refl. intros H1 H2. f_equal. now apply IH.
  - intros _. destruct (N.ltb_spec d c); [discriminate|lia].
Qed.

Lemma common_prefix_length_comm (a b : str) :
  common_prefix_length a b = common_prefix_length b a.
Proof.
  revert b; induction a as [|c a IH]; intros [|d b]; simpl; try reflexivity.
  rewrite (N.eqb_sym d c). destruct (N.eqb c d); [f_equal; apply IH|reflexivity].
Qed.

Lemma common_prefix_length_refl (a : str) : common_prefix_length a a = len a.
Proof.
  induction a as [|c a IH]; simpl; [reflexivity|].
  rewrite N.eqb_refl. f_equal. exact IH.
Qed.

Lemma common_prefix_length_le (a b : str) :
  (common_prefix_length a b <= len a)%nat.
Proof.
  unfold len.
  revert b; induction a as [|c a IH]; intros [|d b]; simpl; try lia.
  destruct (N.eqb c d); [|lia]. specialize (IH b). lia.
Qed.

(** Both strings start with the same [common_prefix_length] characters. *)
Lemma common_prefix_shared (a b : str) :
  firstn (common_prefix_length a b) a = firstn (common_prefix_length a b) b.
Proof.
  revert b; induction a as [|c a IH]; intros [|d b]; simpl; try reflexivity.
  destruct (N.eqb_spec c d) as [->|Hne]; simpl; [|reflexivity].
  f_equal. apply IH.
Qed.

Lemma len_common_prefix (a b : str) :
  len (firstn (common_prefix_length a b) a) = common_prefix_length a b.
Proof.
  unfold len. rewrite length_firstn.
  pose proof (common_prefix_length_le a b) as Hle. unfold len in Hle. lia.
Qed.

(** The loop, started after a shared part [pre], on a pair in order:
    it never indexes out of range and stops at the first difference. *)
Lemma commonprefix_loop_spec (pre x y : str) :
  ltb y x = false ->
  commonprefix_loop (pre ++ x) (pre ++ y) (List.length pre) x =
  Ret (firstn (List.length pre + common_prefix_length x y) (pre ++ x)).
Proof.
  revert pre y; induction x as [|c x IH]; intros pre y Hord.
  - simpl. rewrite Nat.add_0_r, app_nil_r, firstn_all. reflexivity.
  - destruct y as [|d y]; [discriminate|].
    cbn [commonprefix_loop common_prefix_length].
    rewrite nth_error_app2 by lia. rewrite Nat.sub_diag. cbn [nth_error].
    destruct (N.eqb_spec c d) as [->|Hne]; cbn [negb].
    + simpl in Hord. rewrite N.ltb_irrefl, N.eqb_refl in Hord.
      specialize (IH (pre ++ [d]) y Hord).
      rewrite <- !app_assoc, length_app in IH. simpl in IH.
      replace (List.length pre + 1)%nat with (S (List.length pre)) in IH by lia.
      rewrite IH. do 2 f_equal. lia.
    + rewrite Nat.add_0_r. reflexivity.
Qed.

Lemma commonprefix_loop_ordered (x y : str) :
  ltb y x = false ->
  commonprefix_loop x y 0 x = Ret (firstn (common_prefix_length x y) x).
Proof.
  intros Hord. exact (commonprefix_loop_spec [] x y Hord).
Qed.

(** [os.path.commonprefix] of two strings never raises; it returns the
    first [common_prefix_length] characters of either. *)
Lemma commonprefix_pair (a b : str) :
  commonprefix [a; b] = Ret (firstn (common_prefix_length a b) a).
Proof.
  unfold commonprefix. cbn [min_from max_from].
  destruct (ltb b a) eqn:Hba.
  - rewrite (ltb_asym _ _ Hba).
    rewrite (commonprefix_loop_ordered b a) by (now apply ltb_asym).
    rewrite (common_prefix_length_comm b a).
    now rewrite common_prefix_shared.
  - destruct (ltb a b) eqn:Hab.
    + now rewrite (commonprefix_loop_ordered a b Hba).
    + rewrite (commonprefix_loop_ordered a a) by apply ltb_irrefl.
      now rewrite <- (ltb_total _ _ Hab Hba).
Qed.

Lemma len_commonprefix_pair (a b : str) :
  exists s, commonprefix [a; b] = Ret s /\ len s = common_prefix_length a b.
Proof.
  exists (firstn (common_prefix_length a b) a).
  split; [apply commonprefix_pair | apply len_common_prefix].
Qed.

End CommonPrefix.

(** ** One step of the harness *)

Section Steps.

Variable H : Host.

Lemma report_output_run (output : option str) (w : World H) :
  report_output H output w = (Ret tt, w, [Print (output_line output)]).
Proof.
  unfold report_output, output_line, truthy.
  destruct output as [[|c s]|]; reflexivity.
Qed.

(** The analysis block prints the comparison and nothing else; it
    neither raises nor touches the world. *)
Lemma analysis_run (prompt : str) (python_output ruby_output : option str)
    (w : World H) :
  analysis H prompt python_output ruby_output w =
  (Ret tt, w, comparison_report prompt python_output ruby_output).
Proof.
  unfold analysis, comparison_report, truthy.
  destruct python_output as [[|c a]|]; try reflexivity.
  destruct ruby_output as [[|d b]|]; try reflexivity.
  cbv beta iota delta [andb]. unfold bind, lift.
  rewrite commonprefix_pair, len_common_prefix.
  destruct (len prompt <? common_prefix_length (c :: a) (d :: b)); reflexivity.
Qed.

Lemma generate_ruby_run (prompt : str) (max_tokens : Z) (temperature : pyfloat)
    (w : World H) :
  generate_ruby H prompt max_tokens temperature w =
  (ruby_result (fst (subprocess_run H (ruby_argv H prompt max_tokens temperature) 60 w)),
   snd (subprocess_run H (ruby_argv H prompt max_tokens temperature) 60 w),
   Call (CallRun (ruby_argv H prompt max_tokens temperature) 60)
   :: (if ruby_fails (fst (subprocess_run H (ruby_argv H prompt max_tokens temperature) 60 w))
       then [Print (ruby_diagnostic
                      (fst (subprocess_run H (ruby_argv H prompt max_tokens temperature) 60 w)))]
       else [])).
Proof.
  unfold generate_ruby.
  generalize (ruby_argv H prompt max_tokens temperature). intros argv.
  cbv zeta. unfold try_except, bind, invoke, print, ret.
  destruct (subprocess_run H argv 60 w) as [[done|e] w1];
    cbv beta iota delta [fst snd ruby_result ruby_fails ruby_diagnostic
                         ruby_handlers is_Exception].
  - destruct (returncode done =? 0)%Z; reflexivity.
  - destruct e; reflexivity.
Qed.

(** Without a checkpoint [generate_python] asks the file system, prints
    its message and returns [None]. *)
Lemma generate_python_missing (prompt : str) (max_tokens : Z)
    (temperature : pyfloat) (w w1 : World H) :
  Path_exists H (checkpoint_path H) w = (Ret false, w1) ->
  generate_python H prompt max_tokens temperature w =
  (Ret None, w1,
   [Call (CallExists (checkpoint_path H));
    Print (CheckpointNotFound (checkpoint_path H))]).
Proof.
  intros E. unfold generate_python, bind, invoke, print, ret.
  rewrite E. reflexivity.
Qed.

Lemma generate_python_events (prompt : str) (max_tokens : Z)
    (temperature : pyfloat) (w : World H) :
  Forall (python_event H prompt max_tokens temperature)
         (events (generate_python H prompt max_tokens temperature w)).
Proof.
  unfold generate_python, bind, invoke, print, ret, events, python_event.
  generalize (checkpoint_path H). intros path.
  destruct (Path_exists H path w) as [[[|]|e] w1]; cbn [negb snd app].
  2-3: repeat (apply Forall_cons; [auto 10|]); apply Forall_nil.
  destruct (get_tokenizer H w1) as [[tok|e] w2]; cbn [snd app].
  2: repeat (apply Forall_cons; [auto 10|]); apply Forall_nil.
  destruct (GPT_from_checkpoint H path w2) as [[model|e] w3]; cbn [snd app].
  2: repeat (apply Forall_cons; [auto 10|]); apply Forall_nil.
  destruct (get_device H w3) as [[dev|e] w4]; cbn [snd app].
  2: repeat (apply Forall_cons; [auto 10|]); apply Forall_nil.
  destruct (Engine H model tok dev w4) as [[eng|e] w5]; cbn [snd app].
  2: repeat (apply Forall_cons; [auto 10|]); apply Forall_nil.
  destruct (Engine_generate H eng prompt max_tokens temperature float_0_95 w5)
    as [[text|e] w6]; cbn [snd app];
    repeat (apply Forall_cons; [auto 10|]); apply Forall_nil.
Qed.

Lemma compare_prompt_run (n i : nat) (prompt : str) (w : World H) :
  compare_prompt H n i prompt w =
  match generate_python H prompt 50 float_0_8 w with
  | (Raise e, w1, t1) => (Raise e, w1, step_head n i prompt ++ t1)
  | (Ret python_output, w1, t1) =>
      match generate_ruby H prompt 50 float_0_8 w1 with
      | (Raise e, w2, t2) =>
          (Raise e, w2,
           step_head n i prompt ++ t1 ++ step_middle python_output ++ t2)
      | (Ret ruby_output, w2, t2) =>
          (Ret tt, w2,
           step_head n i prompt ++ t1 ++ step_middle python_output ++ t2
           ++ step_tail prompt python_output ruby_output)
      end
  end.
Proof.
  unfold compare_prompt, bind, print, step_head, step_middle, step_tail.
  cbv beta iota.
  destruct (generate_python H prompt 50 float_0_8 w) as [[[po|e] w1] t1];
    cbv beta iota; [|reflexivity].
  rewrite report_output_run. cbv beta iota.
  destruct (generate_ruby H prompt 50 float_0_8 w1) as [[[ro|e] w2] t2];
    cbv beta iota.
  - rewrite report_output_run. cbv beta iota.
    rewrite analysis_run. cbv beta iota.
    cbn [app]. repeat rewrite <- app_assoc. cbn [app]. reflexivity.
  - cbn [app]. repeat rewrite <- app_assoc. cbn [app]. reflexivity.
Qed.

Lemma compare_loop_cons (n i : nat) (prompt : str) (rest : list str)
    (w : World H) :
  compare_loop H n i (prompt :: rest) w =
  match compare_prompt H n i prompt w with
  | (Ret _, w1, t1) =>
      (outcome (compare_loop H n (S i) rest w1),
       final_world (compare_loop H n (S i) rest w1),
       t1 ++ events (compare_loop H n (S i) rest w1))
  | (Raise e, w1, t1) => (Raise e, w1, t1)
  end.
Proof.
  cbn [compare_loop]. unfold bind, outcome, final_world, events.
  destruct (compare_prompt H n i prompt w) as [[[u|e] w1] t1]; [|reflexivity].
  destruct (compare_loop H n (S i) rest w1) as [[r w2] t2]. reflexivity.
Qed.

End Steps.

(** ** The loop over the prompts *)

Section Loop.

Variable H : Host.

Lemma attempted_app (t1 t2 : trace) :
  attempted (t1 ++ t2) = attempted t1 ++ attempted t2.
Proof.
  induction t1 as [|ev t1 IH]; [reflexivity|].
  destruct ev as [l|c]; [destruct l|]; cbn [app attempted]; rewrite IH;
    reflexivity.
Qed.

Lemma attempted_python (prompt : str) (max_tokens : Z) (temperature : pyfloat)
    (w : World H) :
  attempted (events (generate_python H prompt max_tokens temperature w)) = [].
Proof.
  pose proof (generate_python_events H prompt max_tokens temperature w) as Hall.
  induction Hall as [|ev t Hev _ IH]; [reflexivity|].
  unfold python_event in Hev.
  destruct Hev as [->|[->|[->|[->|[->|[->| ->]]]]]]; exact IH.
Qed.

Lemma attempted_ruby (prompt : str) (max_tokens : Z) (temperature : pyfloat)
    (w : World H) :
  attempted (events (generate_ruby H prompt max_tokens temperature w)) = [].
Proof.
  rewrite generate_ruby_run. unfold events. cbn [snd attempted].
  destruct (subprocess_run H _ 60 w) as [[done|e] w1]; cbn [fst].
  - destruct (ruby_fails (Ret done)); reflexivity.
  - destruct e; reflexivity.
Qed.

Lemma attempted_report (prompt : str) (python_output ruby_output : option str) :
  attempted (comparison_report prompt python_output ruby_output) = [].
Proof.
  unfold comparison_report.
  destruct python_output as [[|c a]|]; try reflexivity.
  destruct ruby_output as [[|d b]|]; try reflexivity.
  destruct (len prompt <? common_prefix_length (c :: a) (d :: b)); reflexivity.
Qed.

(** Whatever happens in an iteration, it is the iteration of its prompt
    and of no other. *)
Lemma compare_prompt_attempted (n i : nat) (prompt : str) (w : World H) :
  attempted (events (compare_prompt H n i prompt w)) = [prompt].
Proof.
  rewrite compare_prompt_run.
  pose proof (attempted_python prompt 50 float_0_8 w) as Hp.
  destruct (generate_python H prompt 50 float_0_8 w) as [[[po|e] w1] t1];
    unfold events in Hp; cbn [snd] in Hp.
  - pose proof (attempted_ruby prompt 50 float_0_8 w1) as Hr.
    destruct (generate_ruby H prompt 50 float_0_8 w1) as [[[ro|e] w2] t2];
      unfold events in Hr |- *; cbn [snd] in Hr |- *;
      unfold step_tail; rewrite !attempted_app, ?attempted_report, Hp, Hr;
      destruct po as [[|? ?]|]; try destruct ro as [[|? ?]|]; reflexivity.
  - unfold events; cbn [snd]. rewrite attempted_app, Hp. reflexivity.
Qed.




(** In any run the iterations started are a leading part of the list,
    in list order. *)
Lemma compare_loop_attempts_prefix (prompts : list str) (n i : nat)
    (w : World H) :
  exists k, attempted (events (compare_loop H n i prompts w)) = firstn k prompts.
Proof.
  revert i w. induction prompts as [|prompt rest IH]; intros i w.
  - exists 0%nat. reflexivity.
  - rewrite compare_loop_cons.
    pose proof (compare_prompt_attempted n i prompt w) as Hatt.
    destruct (compare_prompt H n i prompt w) as [[[u|e] w1] t1];
      unfold events in Hatt |- *; cbn [snd] in Hatt |- *.
    + destruct (IH (S i) w1) as [k Hk]. exists (S k).
      rewrite attempted_app, Hatt. unfold events in Hk. rewrite Hk.
      reflexivity.
    + exists 1%nat. rewrite Hatt. reflexivity.
Qed.

End Loop.

(** ** Agreement *)

Section Agreement.

Variable H : Host.

Lemma reports_agreement_app (t1 t2 : trace) :
  reports_agreement (t1 ++ t2) = reports_agreement t1 || reports_agreement t2.
Proof. apply existsb_app. Qed.

Lemma reports_agreement_python (prompt : str) (max_tokens : Z)
    (temperature : pyfloat) (w : World H) :
  reports_agreement (events (generate_python H prompt max_tokens temperature w))
  = false.
Proof.
  pose proof (generate_python_events H prompt max_tokens temperature w) as Hall.
  induction Hall as [|ev t Hev _ IH]; [reflexivity|].
  unfold python_event in Hev.
  destruct Hev as [->|[->|[->|[->|[->|[->| ->]]]]]]; exact IH.
Qed.

Lemma reports_agreement_ruby (prompt : str) (max_tokens : Z)
    (temperature : pyfloat) (w : World H) :
  reports_agreement (events (generate_ruby H prompt max_tokens temperature w))
  = false.
Proof.
  rewrite generate_ruby_run. unfold events. cbn [snd].
  destruct (subprocess_run H _ 60 w) as [[done|e] w1]; cbn [fst].
  - destruct (ruby_fails (Ret done)); reflexivity.
  - destruct e; reflexivity.
Qed.

(** The comparison reports agreement exactly when the shared leading
    part is longer than the prompt. *)
Lemma reports_agreement_report (prompt a b : str) :
  reports_agreement (comparison_report prompt (Some a) (Some b))
  = (len prompt <? common_prefix_length a b).
Proof.
  unfold comparison_report.
  destruct a as [|c a]; [reflexivity|].
  destruct b as [|d b]; [reflexivity|].
  destruct (len prompt <? common_prefix_length (c :: a) (d :: b)); reflexivity.
Qed.

Lemma reports_agreement_step (n i : nat) (prompt : str) (w w1 w2 : World H)
    (python_output ruby_output : option str) (t1 t2 : trace) :
  generate_python H prompt 50 float_0_8 w = (Ret python_output, w1, t1) ->
  generate_ruby H prompt 50 float_0_8 w1 = (Ret ruby_output, w2, t2) ->
  reports_agreement (events (compare_prompt H n i prompt w))
  = reports_agreement (comparison_report prompt python_output ruby_output).
Proof.
  intros Hpy Hrb.
  pose proof (reports_agreement_python prompt 50 float_0_8 w) as Ht1.
  pose proof (reports_agreement_ruby prompt 50 float_0_8 w1) as Ht2.
  rewrite compare_prompt_run, Hpy, Hrb.
  rewrite Hpy in Ht1. rewrite Hrb in Ht2. unfold events in *. cbn [snd] in *.
  unfold step_tail. rewrite !reports_agreement_app, Ht1, Ht2.
  destruct python_output as [[|? ?]|]; destruct ruby_output as [[|? ?]|];
    cbn [step_head step_middle output_line reports_agreement existsb
         is_agreement orb];
    rewrite ?orb_false_r; reflexivity.
Qed.

Lemma reports_agreement_present (n i : nat) (prompt a b : str)
    (w w1 w2 : World H) (t1 t2 : trace) :
  generate_python H prompt 50 float_0_8 w = (Ret (Some a), w1, t1) ->
  generate_ruby H prompt 50 float_0_8 w1 = (Ret (Some b), w2, t2) ->
  reports_agreement (events (compare_prompt H n i prompt w))
  = (len prompt <? common_prefix_length a b).
Proof.
  intros Hpy Hrb.
  rewrite (reports_agreement_step n i prompt w w1 w2 _ _ t1 t2 Hpy Hrb).
  apply reports_agreement_report.
Qed.

End Agreement.

(** ** The claims *)

(** C2.  For every prompt and every pair of present results [a] and [b]
    (Implementation A returned [a], Implementation B returned [b]), the
    iteration prints the agreement line if and only if the length of the
    longest common leading substring of [a] and [b] is strictly greater
    than the length of the prompt. *)
Theorem agreement_iff_prefix_exceeds_prompt
    (H : Host) (n i : nat) (prompt a b : str) (w w1 w2 : World H)
    (t1 t2 : trace) :
  generate_python H prompt 50 float_0_8 w = (Ret (Some a), w1, t1) ->
  generate_ruby H prompt 50 float_0_8 w1 = (Ret (Some b), w2, t2) ->
  reports_agreement (events (compare_prompt H n i prompt w)) = true
  <-> (len prompt < common_prefix_length a b)%nat.
Proof.
  intros Hpy Hrb.
  rewrite (reports_agreement_present H n i prompt a b w w1 w2 t1 t2 Hpy Hrb).
  apply Nat.ltb_lt.
Qed.

Lemma agreement_iff_prefix_exceeds_prompt_witness :
  reports_agreement
    (events (compare_prompt host_both_answer 3 1 (lit "Once upon a time") 0))
  = true
  <-> (len (lit "Once upon a time")
       < common_prefix_length (lit "Once upon a time there was")
                              (lit "Once upon a time there lived"))%nat.
Proof.
  apply (agreement_iff_prefix_exceeds_prompt
           host_both_answer 3 1 (lit "Once upon a time")
           (lit "Once upon a time there was")
           (lit "Once upon a time there lived") 0 6 7
           (events (generate_python host_both_answer
                      (lit "Once upon a time") 50 float_0_8 0))
           (events (generate_ruby host_both_answer
                      (lit "Once upon a time") 50 float_0_8 6)));
    vm_compute; reflexivity.
Defined.

(** C3.  When the checkpoint path does not exist, Implementation A
    returns [None] without raising; besides the file-system query it
    calls nothing (no tokenizer, model, device or engine), and the
    iteration goes on to launch Implementation B for the same prompt. *)
Theorem missing_checkpoint_skips_only_python
    (H : Host) (n i : nat) (prompt : str) (w w1 : World H) :
  Path_exists H (checkpoint_path H) w = (Ret false, w1) ->
  generate_python H prompt 50 float_0_8 w
  = (Ret None, w1,
     [Call (CallExists (checkpoint_path H));
      Print (CheckpointNotFound (checkpoint_path H))])
  /\ filter is_collaborator
       (events (generate_python H prompt 50 float_0_8 w)) = []
  /\ exists rest,
       events (compare_prompt H n i prompt w)
       = step_head n i prompt
         ++ [Call (CallExists (checkpoint_path H));
             Print (CheckpointNotFound (checkpoint_path H));
             Print Failed; Print Blank; Print RubyLabel;
             Call (CallRun (ruby_argv H prompt 50 float_0_8) 60)]
         ++ rest.
Proof.
  intros Hmissing.
  pose proof (generate_python_missing H prompt 50 float_0_8 w w1 Hmissing)
    as Hpy.
  split; [exact Hpy|]. split; [rewrite Hpy; reflexivity|].
  rewrite compare_prompt_run, Hpy.
  rewrite (generate_ruby_run H prompt 50 float_0_8 w1).
  destruct (subprocess_run H (ruby_argv H prompt 50 float_0_8) 60 w1)
    as [r w2]. cbn [fst snd].
  destruct (ruby_result r) as [ro|e]; unfold events; cbn [snd];
    eexists; cbn [app step_middle output_line]; reflexivity.
Qed.

Lemma missing_checkpoint_skips_only_python_witness :
  Path_exists host_no_checkpoint (checkpoint_path host_no_checkpoint) 0
  = (Ret false, 1)
  /\ outcome (generate_python host_no_checkpoint (lit "Once upon a time")
                50 float_0_8 0) = Ret None.
Proof.
  split; [reflexivity|].
  destruct (missing_checkpoint_skips_only_python
              host_no_checkpoint 3 1 (lit "Once upon a time") 0 1 eq_refl)
    as [Hpy _].
  rewrite Hpy. reflexivity.
Defined.

(** C4.  Implementation B is run with a timeout of 60.  If the run times
    out, exits with a non-zero status or raises any other [Exception],
    [generate_ruby] prints one diagnostic (the captured error stream when
    the status is non-zero) and returns [None]; the iteration completes
    and the loop goes on with the next prompt. *)
Theorem ruby_failure_is_contained
    (H : Host) (n i : nat) (prompt : str) (rest : list str)
    (w w1 w2 : World H) (python_output : option str) (t1 : trace)
    (r : result CompletedProcess) :
  generate_python H prompt 50 float_0_8 w = (Ret python_output, w1, t1) ->
  subprocess_run H (ruby_argv H prompt 50 float_0_8) 60 w1 = (r, w2) ->
  ruby_fails r = true ->
  generate_ruby H prompt 50 float_0_8 w1
  = (Ret None, w2,
     [Call (CallRun (ruby_argv H prompt 50 float_0_8) 60);
      Print (ruby_diagnostic r)])
  /\ (forall done, r = Ret done -> ruby_diagnostic r = RubyError (stderr done))
  /\ outcome (compare_prompt H n i prompt w) = Ret tt
  /\ final_world (compare_prompt H n i prompt w) = w2
  /\ compare_loop H n i (prompt :: rest) w
     = (outcome (compare_loop H n (S i) rest w2),
        final_world (compare_loop H n (S i) rest w2),
        events (compare_prompt H n i prompt w)
        ++ events (compare_loop H n (S i) rest w2)).
Proof.
  intros Hpy Hrun Hfail.
  assert (Hrb : generate_ruby H prompt 50 float_0_8 w1
                = (Ret None, w2,
                   [Call (CallRun (ruby_argv H prompt 50 float_0_8) 60);
                    Print (ruby_diagnostic r)])).
  { rewrite generate_ruby_run, Hrun. cbn [fst snd]. rewrite Hfail.
    destruct r as [done|e]; cbn [ruby_fails] in Hfail.
    - unfold ruby_result. apply negb_true_iff in Hfail. rewrite Hfail.
      reflexivity.
    - destruct e; try discriminate Hfail; reflexivity. }
  split; [exact Hrb|].
  split; [intros done ->; reflexivity|].
  assert (Hstep : compare_prompt H n i prompt w
                  = (Ret tt, w2, events (compare_prompt H n i prompt w))).
  { rewrite compare_prompt_run, Hpy, Hrb. reflexivity. }
  split; [rewrite Hstep; reflexivity|].
  split; [rewrite Hstep; reflexivity|].
  rewrite compare_loop_cons. rewrite Hstep at 1. reflexivity.
Qed.

Lemma ruby_failure_is_contained_witness :
  ruby_fails (Raise TimeoutExpired) = true
  /\ generate_ruby host_ruby_timeout (lit "Once upon a time") 50 float_0_8 6
     = (Ret None, 7,
        [Call (CallRun (ruby_argv host_ruby_timeout (lit "Once upon a time")
                          50 float_0_8) 60);
         Print RubyTimedOut]).
Proof.
  split; [reflexivity|].
  apply (ruby_failure_is_contained
           host_ruby_timeout 3 1 (lit "Once upon a time")
           [lit "The meaning of life is"; lit "Hello, how are you?"]
           0 6 7 (Some (lit "Once upon a time there was"))
           (events (generate_python host_ruby_timeout
                      (lit "Once upon a time") 50 float_0_8 0))
           (Raise TimeoutExpired));
    vm_compute; reflexivity.
Defined.

(** ** Stripping white space *)

Section Strip.

Lemma lstrip_blank (s : str) : forallb isspace s = true -> lstrip s = [].
Proof.
  induction s as [|c s IH]; [reflexivity|].
  cbn [forallb lstrip]. intros Hall. apply andb_true_iff in Hall.
  destruct Hall as [Hc Hs]. rewrite Hc. auto.
Qed.

Lemma strip_blank (s : str) : forallb isspace s = true -> strip s = [].
Proof.
  intros Hall. unfold strip. rewrite (lstrip_blank s Hall). reflexivity.
Qed.

(** [lstrip] removes a run of white space from the front and nothing
    else. *)
Lemma lstrip_split (s : str) :
  exists l, s = l ++ lstrip s /\ forallb isspace l = true.
Proof.
  induction s as [|c s [l [Hs Hl]]].
  - exists []. split; reflexivity.
  - cbn [lstrip]. destruct (isspace c) eqn:Hc.
    + exists (c :: l). split; [cbn [app]; f_equal; exact Hs|].
      cbn [forallb]. rewrite Hc, Hl. reflexivity.
    + exists []. split; reflexivity.
Qed.

Lemma forallb_rev (f : char -> bool) (l : str) :
  forallb f l = true -> forallb f (rev l) = true.
Proof.
  rewrite !forallb_forall. intros Hall x Hx. apply Hall.
  apply in_rev. exact Hx.
Qed.

Lemma rstrip_split (s : str) :
  exists r, s = rstrip s ++ r /\ forallb isspace r = true.
Proof.
  destruct (lstrip_split (rev s)) as [l [Hs Hl]].
  exists (rev l). split; [|apply forallb_rev; exact Hl].
  unfold rstrip. rewrite <- rev_app_distr, <- Hs, rev_involutive. reflexivity.
Qed.

(** [strip] leaves the text between a leading and a trailing run of
    white space. *)
Lemma strip_split (s : str) :
  exists l r,
    s = l ++ strip s ++ r
    /\ forallb isspace l = true /\ forallb isspace r = true.
Proof.
  destruct (lstrip_split s) as [l [Hs Hl]].
  destruct (rstrip_split (lstrip s)) as [r [Hs' Hr]].
  exists l, r. unfold strip. rewrite <- Hs'. auto.
Qed.

End Strip.

(** C5 (amended).  When Implementation B exits with status 0, its result
    is the captured standard output with leading and trailing white
    space stripped, not the captured text itself; the comparison is then
    made on the characters of the two results as returned: agreement is
    decided by the common prefix of A's text and B's stripped output. *)
Theorem ruby_result_is_stripped_stdout
    (H : Host) (n i : nat) (prompt a : str) (w w1 w2 : World H) (t1 : trace)
    (done : CompletedProcess) :
  generate_python H prompt 50 float_0_8 w = (Ret (Some a), w1, t1) ->
  subprocess_run H (ruby_argv H prompt 50 float_0_8) 60 w1 = (Ret done, w2) ->
  returncode done = 0%Z ->
  generate_ruby H prompt 50 float_0_8 w1
  = (Ret (Some (strip (stdout done))), w2,
     [Call (CallRun (ruby_argv H prompt 50 float_0_8) 60)])
  /\ (exists l r,
         stdout done = l ++ strip (stdout done) ++ r
         /\ forallb isspace l = true /\ forallb isspace r = true)
  /\ (reports_agreement (events (compare_prompt H n i prompt w)) = true
      <-> (len prompt < common_prefix_length a (strip (stdout done)))%nat).
Proof.
  intros Hpy Hrun Hzero.
  assert (Hrb : generate_ruby H prompt 50 float_0_8 w1
                = (Ret (Some (strip (stdout done))), w2,
                   [Call (CallRun (ruby_argv H prompt 50 float_0_8) 60)])).
  { rewrite generate_ruby_run, Hrun. cbn [fst snd ruby_result ruby_fails].
    rewrite Hzero. reflexivity. }
  split; [exact Hrb|]. split; [apply strip_split|].
  rewrite (reports_agreement_present H n i prompt a (strip (stdout done))
             w w1 w2 t1 _ Hpy Hrb).
  apply Nat.ltb_lt.
Qed.

Lemma ruby_result_is_stripped_stdout_witness :
  returncode (mkCompleted 0 (lit "Once upon a time there lived" ++ [newline]) [])
  = 0%Z
  /\ generate_ruby host_both_answer (lit "Once upon a time") 50 float_0_8 6
     = (Ret (Some (lit "Once upon a time there lived")), 7,
        [Call (CallRun (ruby_argv host_both_answer (lit "Once upon a time")
                          50 float_0_8) 60)]).
Proof.
  split; [reflexivity|].
  destruct (ruby_result_is_stripped_stdout
              host_both_answer 3 1 (lit "Once upon a time")
              (lit "Once upon a time there was") 0 6 7
              (events (generate_python host_both_answer
                         (lit "Once upon a time") 50 float_0_8 0))
              (mkCompleted 0 (lit "Once upon a time there lived" ++ [newline]) [])
              eq_refl eq_refl eq_refl)
    as [Hrb _].
  exact Hrb.
Defined.

(** C5, as stated, fails: the child exits with status 0 after [puts]
    wrote the answer and a line feed, and the result of [generate_ruby]
    is not the captured standard output. *)
Lemma ruby_result_differs_from_stdout :
  subprocess_run host_both_answer
    (ruby_argv host_both_answer (lit "Once upon a time") 50 float_0_8) 60 6
  = (Ret (mkCompleted 0 (lit "Once upon a time there lived" ++ [newline]) []), 7)
  /\ outcome (generate_ruby host_both_answer (lit "Once upon a time")
                50 float_0_8 6)
     <> Ret (Some (lit "Once upon a time there lived" ++ [newline])).
Proof.
  split; [reflexivity|].
  vm_compute. intros Heq. discriminate Heq.
Qed.

(** ** Empty outputs *)

Section EmptyOutput.

Variable H : Host.

Lemma output_line_falsy (output : option str) :
  truthy output = false -> output_line output = Failed.
Proof. destruct output as [[|c s]|]; [reflexivity|discriminate|reflexivity]. Qed.

Lemma comparison_report_falsy_l (prompt : str) (output other : option str) :
  truthy output = false -> comparison_report prompt output other = [].
Proof. destruct output as [[|c s]|]; [reflexivity|discriminate|reflexivity]. Qed.

Lemma comparison_report_falsy_r (prompt : str) (output other : option str) :
  truthy output = false -> comparison_report prompt other output = [].
Proof.
  destruct output as [[|c s]|]; [|discriminate|]; intros _;
    destruct other as [[|d b]|]; reflexivity.
Qed.

End EmptyOutput.

(** C10.  An output that is [None] or the empty string is reported as
    [(failed)] and the analysis block prints nothing for it, on either
    side; the whole iteration prints exactly what it prints for an
    unavailable result.  A child that exits with status 0 after writing
    only white space yields the empty string, hence the same report. *)
Theorem empty_output_counts_as_failure
    (H : Host) (n i : nat) (prompt : str) (output other : option str)
    (w : World H) :
  truthy output = false ->
  (truthy (Some []) = false /\ truthy None = false)
  /\ report_output H output w = (Ret tt, w, [Print Failed])
  /\ analysis H prompt output other w = (Ret tt, w, [])
  /\ analysis H prompt other output w = (Ret tt, w, [])
  /\ (forall w1 w2 t1 t2,
         generate_python H prompt 50 float_0_8 w = (Ret output, w1, t1) ->
         generate_ruby H prompt 50 float_0_8 w1 = (Ret other, w2, t2) ->
         compare_prompt H n i prompt w
         = (Ret tt, w2,
            step_head n i prompt ++ t1
            ++ [Print Failed; Print Blank; Print RubyLabel] ++ t2
            ++ [Print (output_line other); Print Blank;
                Print Blank; Print RuleEq; Print Blank]))
  /\ (forall w1 w2 t1 t2,
         generate_python H prompt 50 float_0_8 w = (Ret other, w1, t1) ->
         generate_ruby H prompt 50 float_0_8 w1 = (Ret output, w2, t2) ->
         compare_prompt H n i prompt w
         = (Ret tt, w2,
            step_head n i prompt ++ t1 ++ step_middle other ++ t2
            ++ [Print Failed; Print Blank;
                Print Blank; Print RuleEq; Print Blank]))
  /\ (forall done w0 w1,
         subprocess_run H (ruby_argv H prompt 50 float_0_8) 60 w0
         = (Ret done, w1) ->
         returncode done = 0%Z ->
         forallb isspace (stdout done) = true ->
         generate_ruby H prompt 50 float_0_8 w0
         = (Ret (Some []), w1,
            [Call (CallRun (ruby_argv H prompt 50 float_0_8) 60)])).
Proof.
  intros Hfalsy.
  split; [split; reflexivity|].
  split; [rewrite report_output_run, (output_line_falsy output Hfalsy);
          reflexivity|].
  split; [rewrite analysis_run, (comparison_report_falsy_l prompt output other Hfalsy);
          reflexivity|].
  split; [rewrite analysis_run, (comparison_report_falsy_r prompt output other Hfalsy);
          reflexivity|].
  split; [|split].
  - intros w1 w2 t1 t2 Hpy Hrb. rewrite compare_prompt_run, Hpy, Hrb.
    unfold step_middle, step_tail.
    rewrite (output_line_falsy output Hfalsy),
      (comparison_report_falsy_l prompt output other Hfalsy).
    reflexivity.
  - intros w1 w2 t1 t2 Hpy Hrb. rewrite compare_prompt_run, Hpy, Hrb.
    unfold step_tail.
    rewrite (output_line_falsy output Hfalsy),
      (comparison_report_falsy_r prompt output other Hfalsy).
    reflexivity.
  - intros done w0 w1 Hrun Hzero Hblank.
    rewrite generate_ruby_run, Hrun. cbn [fst snd ruby_result ruby_fails].
    rewrite Hzero, (strip_blank (stdout done) Hblank). reflexivity.
Qed.

Lemma empty_output_counts_as_failure_witness :
  truthy (Some []) = false
  /\ report_output host_ruby_blank (Some []) 7 = (Ret tt, 7, [Print Failed]).
Proof.
  split; [reflexivity|].
  apply (empty_output_counts_as_failure
           host_ruby_blank 3 1 (lit "Once upon a time") (Some []) None 7
           eq_refl).
Defined.

(** ** The whole run *)

Section Run.

Variable H : Host.

Lemma compare_outputs_run (w : World H) :
  compare_outputs H w
  = (outcome (compare_loop H (List.length test_prompts) 1 test_prompts w),
     final_world (compare_loop H (List.length test_prompts) 1 test_prompts w),
     [Print Banner; Print RuleEq; Print Blank]
     ++ events (compare_loop H (List.length test_prompts) 1 test_prompts w)).
Proof.
  unfold compare_outputs, bind, print, outcome, final_world, events.
  cbv beta iota.
  destruct (compare_loop H (List.length test_prompts) 1 test_prompts w)
    as [[r w1] t].
  reflexivity.
Qed.

Lemma main_run (w : World H) :
  main H w
  = match outcome (compare_outputs H w) with
    | Ret _ =>
        (0%Z, final_world (compare_outputs H w), events (compare_outputs H w))
    | Raise e =>
        (final_status e, final_world (compare_outputs H w),
         events (compare_outputs H w) ++ final_report e)
    end.
Proof.
  unfold main, outcome, final_world, events.
  destruct (compare_outputs H w) as [[[u|e] w1] t]; [reflexivity|].
  destruct e; reflexivity.
Qed.


End Run.




(** ** The request sent to both implementations *)

Section Request.

Variable H : Host.










End Request.



(** C9.  The common prefix of two strings is a total function of the two
    strings alone: it never raises, its value is their first
    [common_prefix_length] characters, and as a step of the script it
    reads and changes nothing of the world and prints nothing, so that
    evaluating it twice, in any two worlds, gives the same string. *)
Theorem commonprefix_is_pure (H : Host) (a b : str) (w w' : World H) :
  commonprefix [a; b] = Ret (firstn (common_prefix_length a b) a)
  /\ lift (commonprefix [a; b]) w
     = (Ret (firstn (common_prefix_length a b) a), w, [])
  /\ outcome (lift (commonprefix [a; b]) w')
     = outcome (lift (commonprefix [a; b]) w)
  /\ (x <- lift (commonprefix [a; b]) ;;
      y <- lift (commonprefix [a; b]) ;;
      ret (x, y)) w
     = (Ret (firstn (common_prefix_length a b) a,
             firstn (common_prefix_length a b) a), w, [])
  /\ (analysis H a (Some a) (Some b) ;; analysis H a (Some a) (Some b)) w
     = (Ret tt, w,
        comparison_report a (Some a) (Some b)
        ++ comparison_report a (Some a) (Some b)).
Proof.
  unfold bind, lift, ret, outcome. cbn [fst].
  rewrite !analysis_run, !commonprefix_pair. repeat split; reflexivity.
Qed.

(** C1.  The claim does not hold of the script: [generate_python] has no
    handler, so an exception of the tokenizer leaves it, leaves the
    iteration and the loop, and ends the run with status 1 during the
    first prompt, before Implementation B was started. *)
Theorem python_exception_escapes :
  outcome (generate_python host_tokenizer_fails (lit "Once upon a time")
             50 float_0_8 0)
  = Raise (Exception (lit "tokenizer.pkl not found"))
  /\ outcome (compare_prompt host_tokenizer_fails 3 1
                (lit "Once upon a time") 0)
     = Raise (Exception (lit "tokenizer.pkl not found"))
  /\ outcome (compare_outputs host_tokenizer_fails 0)
     = Raise (Exception (lit "tokenizer.pkl not found"))
  /\ exit_code host_tokenizer_fails 0 = 1%Z
  /\ filter is_run (snd (main host_tokenizer_fails 0)) = [].
Proof. vm_compute. repeat split; reflexivity. Qed.

(** C8.  The claim does not hold of the script: when Implementation A
    raises on the second prompt the run stops there; the third prompt is
    never attempted and Implementation B has run for the first prompt
    only. *)
Theorem run_stops_at_python_failure :
  attempted (snd (main host_engine_fails_second 0))
  = [lit "Once upon a time"; lit "The meaning of life is"]
  /\ attempted (snd (main host_engine_fails_second 0)) <> test_prompts
  /\ List.length (filter is_run (snd (main host_engine_fails_second 0))) = 1%nat
  /\ exit_code host_engine_fails_second 0 = 1%Z.
Proof.
  vm_compute. repeat split; try reflexivity. intros Heq. discriminate Heq.
Qed.

(** * Further properties of the harness *)

(** ** The calls of Implementation A *)

Section PythonCalls.

Variable H : Host.

Lemma generate_python_trace (prompt : str) (max_tokens : Z)
    (temperature : pyfloat) (w : World H) :
  (outcome (generate_python H prompt max_tokens temperature w) = Ret None
   /\ events (generate_python H prompt max_tokens temperature w)
      = [Call (CallExists (checkpoint_path H));
         Print (CheckpointNotFound (checkpoint_path H))])
  \/ (exists k,
         (1 <= k <= 6)%nat
         /\ events (generate_python H prompt max_tokens temperature w)
            = firstn k (python_calls H prompt max_tokens temperature)
         /\ (forall output,
                outcome (generate_python H prompt max_tokens temperature w)
                = Ret output ->
                k = 6%nat /\ output <> None)).
Proof.
  unfold generate_python, python_calls, bind, invoke, print, ret, events,
    outcome.
  generalize (checkpoint_path H). intros path.
  destruct (Path_exists H path w) as [[[|]|e] w1]; cbn [negb fst snd app].
  2: left; split; reflexivity.
  2: right; exists 1%nat; repeat split; try lia; discriminate.
  right.
  destruct (get_tokenizer H w1) as [[tok|e] w2]; cbn [fst snd app].
  2: exists 2%nat; repeat split; try lia; discriminate.
  destruct (GPT_from_checkpoint H path w2) as [[model|e] w3]; cbn [fst snd app].
  2: exists 3%nat; repeat split; try lia; discriminate.
  destruct (get_device H w3) as [[dev|e] w4]; cbn [fst snd app].
  2: exists 4%nat; repeat split; try lia; discriminate.
  destruct (Engine H model tok dev w4) as [[eng|e] w5]; cbn [fst snd app].
  2: exists 5%nat; repeat split; try lia; discriminate.
  exists 6%nat.
  destruct (Engine_generate H eng prompt max_tokens temperature float_0_95 w5)
    as [[text|e] w6]; cbn [fst snd app];
    (split; [lia|]); (split; [reflexivity|]); intros output E.
  - injection E as <-. split; [reflexivity|discriminate].
  - discriminate E.
Qed.

Lemma generate_python_exists_once (prompt : str) (max_tokens : Z)
    (temperature : pyfloat) (w : World H) :
  filter is_exists (events (generate_python H prompt max_tokens temperature w))
  = [Call (CallExists (checkpoint_path H))].
Proof.
  destruct (generate_python_trace prompt max_tokens temperature w)
    as [[_ ->]|[k [Hk [-> _]]]]; [reflexivity|].
  unfold python_calls.
  do 7 (destruct k as [|k]; [try lia; reflexivity|]). lia.
Qed.

Lemma generate_python_never_runs (prompt : str) (max_tokens : Z)
    (temperature : pyfloat) (w : World H) :
  filter is_run (events (generate_python H prompt max_tokens temperature w))
  = [].
Proof.
  destruct (generate_python_trace prompt max_tokens temperature w)
    as [[_ ->]|[k [Hk [-> _]]]]; [reflexivity|].
  unfold python_calls.
  do 7 (destruct k as [|k]; [try lia; reflexivity|]). lia.
Qed.

Lemma generate_ruby_runs_once (prompt : str) (max_tokens : Z)
    (temperature : pyfloat) (w : World H) :
  filter is_run (events (generate_ruby H prompt max_tokens temperature w))
  = [Call (CallRun (ruby_argv H prompt max_tokens temperature) 60)]
  /\ filter is_python_call
       (events (generate_ruby H prompt max_tokens temperature w)) = []
  /\ filter is_exists
       (events (generate_ruby H prompt max_tokens temperature w)) = [].
Proof.
  rewrite generate_ruby_run. unfold events. cbn [snd].
  generalize (ruby_argv H prompt max_tokens temperature). intros argv.
  destruct (subprocess_run H argv 60 w) as [[done|e] w1]; cbn [fst].
  - destruct (ruby_fails (Ret done)); repeat split; reflexivity.
  - destruct e; repeat split; reflexivity.
Qed.

Lemma report_has_no_calls (prompt : str) (python_output ruby_output : option str) :
  filter is_run (comparison_report prompt python_output ruby_output) = []
  /\ filter is_python_call (comparison_report prompt python_output ruby_output)
     = []
  /\ filter is_exists (comparison_report prompt python_output ruby_output) = [].
Proof.
  unfold comparison_report.
  destruct python_output as [[|c a]|]; try (repeat split; reflexivity).
  destruct ruby_output as [[|d b]|]; repeat split; reflexivity.
Qed.

End PythonCalls.

(** ** Counting calls over an iteration and over the loop *)

Section Counting.

Variable H : Host.

Lemma compare_prompt_exists_once (n i : nat) (prompt : str) (w : World H) :
  filter is_exists (events (compare_prompt H n i prompt w))
  = [Call (CallExists (checkpoint_path H))].
Proof.
  rewrite compare_prompt_run.
  pose proof (generate_python_exists_once H prompt 50 float_0_8 w) as Hp.
  destruct (generate_python H prompt 50 float_0_8 w) as [[[po|e] w1] t1];
    unfold events in Hp |- *; cbn [snd] in Hp |- *.
  - destruct (generate_ruby_runs_once H prompt 50 float_0_8 w1)
      as [_ [_ Hr]].
    destruct (generate_ruby H prompt 50 float_0_8 w1) as [[[ro|e] w2] t2];
      unfold events in Hr; cbn [snd] in Hr |- *;
      unfold step_head, step_middle, step_tail; rewrite !filter_app, Hp, Hr.
    + destruct (report_has_no_calls prompt po ro) as [_ [_ ->]]. reflexivity.
    + reflexivity.
  - unfold step_head. rewrite filter_app, Hp. reflexivity.
Qed.

(** An iteration launches the child at most once, and exactly once when
    it completes. *)
Lemma compare_prompt_runs (n i : nat) (prompt : str) (w : World H) :
  (List.length (filter is_run (events (compare_prompt H n i prompt w))) <= 1)%nat
  /\ (forall u,
         outcome (compare_prompt H n i prompt w) = Ret u ->
         filter is_run (events (compare_prompt H n i prompt w))
         = [Call (CallRun (ruby_argv H prompt 50 float_0_8) 60)]).
Proof.
  rewrite compare_prompt_run.
  pose proof (generate_python_never_runs H prompt 50 float_0_8 w) as Hp.
  destruct (generate_python H prompt 50 float_0_8 w) as [[[po|e] w1] t1];
    unfold events, outcome in Hp |- *; cbn [fst snd] in Hp |- *.
  - destruct (generate_ruby_runs_once H prompt 50 float_0_8 w1)
      as [Hr _].
    destruct (generate_ruby H prompt 50 float_0_8 w1) as [[[ro|e] w2] t2];
      unfold events in Hr; cbn [fst snd] in Hr |- *;
      unfold step_head, step_middle, step_tail; rewrite !filter_app, Hp, Hr.
    + destruct (report_has_no_calls prompt po ro) as [-> _].
      split; [cbn; lia|reflexivity].
    + split; [cbn; lia|discriminate].
  - unfold step_head. rewrite filter_app, Hp.
    split; [cbn; lia|discriminate].
Qed.

Lemma compare_loop_counts (prompts : list str) (n i : nat) (w : World H) :
  List.length (filter is_exists (events (compare_loop H n i prompts w)))
  = List.length (attempted (events (compare_loop H n i prompts w)))
  /\ (List.length (filter is_run (events (compare_loop H n i prompts w)))
      <= List.length (attempted (events (compare_loop H n i prompts w))))%nat.
Proof.
  revert i w. induction prompts as [|prompt rest IH]; intros i w.
  - split; [reflexivity|]. cbn. lia.
  - rewrite compare_loop_cons.
    pose proof (compare_prompt_exists_once n i prompt w) as Hex.
    pose proof (compare_prompt_attempted H n i prompt w) as Hatt.
    destruct (compare_prompt_runs n i prompt w) as [Hrun _].
    destruct (compare_prompt H n i prompt w) as [[[u|e] w1] t1];
      unfold events in Hex, Hatt, Hrun |- *; cbn [snd] in Hex, Hatt, Hrun |- *.
    + destruct (IH (S i) w1) as [IHex IHrun]. unfold events in IHex, IHrun.
      rewrite !filter_app, attempted_app, !length_app, Hex, Hatt.
      split; [rewrite IHex; reflexivity|]. cbn [List.length]. lia.
    + rewrite Hex, Hatt. split; [reflexivity|]. cbn [List.length]. lia.
Qed.

(** A loop that returns has gone through all its prompts and launched
    the child once for each. *)
Lemma compare_loop_returns (prompts : list str) (n i : nat) (w : World H)
    (u : unit) :
  outcome (compare_loop H n i prompts w) = Ret u ->
  attempted (events (compare_loop H n i prompts w)) = prompts
  /\ List.length (filter is_run (events (compare_loop H n i prompts w)))
     = List.length prompts.
Proof.
  revert i w. induction prompts as [|prompt rest IH]; intros i w.
  - intros _. split; reflexivity.
  - rewrite compare_loop_cons.
    pose proof (compare_prompt_attempted H n i prompt w) as Hatt.
    destruct (compare_prompt_runs n i prompt w) as [_ Hrun].
    destruct (compare_prompt H n i prompt w) as [[[u1|e] w1] t1];
      unfold events, outcome in Hatt, Hrun |- *;
      cbn [fst snd] in Hatt, Hrun |- *; [|discriminate].
    intros Hret. destruct (IH (S i) w1 Hret) as [IHatt IHrun].
    unfold events in IHatt, IHrun.
    rewrite filter_app, attempted_app, length_app, Hatt, IHatt, IHrun,
      (Hrun u1 eq_refl).
    split; reflexivity.
Qed.

Lemma final_report_is_silent (e : exn) :
  attempted (final_report e) = []
  /\ filter is_run (final_report e) = []
  /\ filter is_exists (final_report e) = [].
Proof. destruct e as [| | |[| |]|]; repeat split; reflexivity. Qed.

(** What the process prints and calls: the banner, the loop, and what
    is printed last if an exception came up. *)
Lemma main_events (w : World H) :
  exists report,
    snd (main H w)
    = [Print Banner; Print RuleEq; Print Blank]
      ++ events (compare_loop H (List.length test_prompts) 1 test_prompts w)
      ++ report
    /\ attempted report = []
    /\ filter is_run report = []
    /\ filter is_exists report = [].
Proof.
  rewrite main_run, compare_outputs_run. unfold outcome at 1. cbn [fst].
  destruct (outcome (compare_loop H (List.length test_prompts) 1 test_prompts w))
    as [u|e]; unfold events at 1; cbn [snd].
  - exists []. rewrite app_nil_r. repeat split; reflexivity.
  - exists (final_report e). unfold events at 1. cbn [snd].
    rewrite <- app_assoc.
    split; [reflexivity|apply final_report_is_silent].
Qed.

Lemma compare_loop_attempts_first (prompt : str) (rest : list str)
    (n i : nat) (w : World H) :
  exists k,
    attempted (events (compare_loop H n i (prompt :: rest) w))
    = prompt :: firstn k rest.
Proof.
  rewrite compare_loop_cons.
  pose proof (compare_prompt_attempted H n i prompt w) as Hatt.
  destruct (compare_prompt H n i prompt w) as [[[u|e] w1] t1];
    unfold events in Hatt |- *; cbn [snd] in Hatt |- *.
  - destruct (compare_loop_attempts_prefix H rest n (S i) w1) as [k Hk].
    exists k. unfold events in Hk. rewrite attempted_app, Hatt, Hk.
    reflexivity.
  - exists 0%nat. rewrite Hatt. reflexivity.
Qed.

End Counting.

(** X1.  A keyboard interrupt while the child runs is not handled by
    [generate_ruby]: nothing is printed for it, the iteration and the
    loop raise it, and no later prompt is attempted. *)
Theorem keyboard_interrupt_stops_run
    (H : Host) (n i : nat) (prompt : str) (rest : list str)
    (w w1 w2 : World H) (python_output : option str) (t1 : trace) :
  generate_python H prompt 50 float_0_8 w = (Ret python_output, w1, t1) ->
  subprocess_run H (ruby_argv H prompt 50 float_0_8) 60 w1
  = (Raise KeyboardInterrupt, w2) ->
  generate_ruby H prompt 50 float_0_8 w1
  = (Raise KeyboardInterrupt, w2,
     [Call (CallRun (ruby_argv H prompt 50 float_0_8) 60)])
  /\ outcome (compare_loop H n i (prompt :: rest) w) = Raise KeyboardInterrupt
  /\ final_world (compare_loop H n i (prompt :: rest) w) = w2
  /\ attempted (events (compare_loop H n i (prompt :: rest) w)) = [prompt].
Proof.
  intros Hpy Hrun.
  assert (Hrb : generate_ruby H prompt 50 float_0_8 w1
                = (Raise KeyboardInterrupt, w2,
                   [Call (CallRun (ruby_argv H prompt 50 float_0_8) 60)])).
  { rewrite generate_ruby_run, Hrun. reflexivity. }
  split; [exact Hrb|].
  pose proof (compare_prompt_attempted H n i prompt w) as Hatt.
  rewrite compare_loop_cons.
  rewrite compare_prompt_run, Hpy, Hrb in Hatt |- *.
  repeat split. exact Hatt.
Qed.

Lemma keyboard_interrupt_stops_run_witness :
  outcome (compare_loop host_ruby_interrupted 3 1 test_prompts 0)
  = Raise KeyboardInterrupt
  /\ attempted (events (compare_loop host_ruby_interrupted 3 1 test_prompts 0))
     = [lit "Once upon a time"].
Proof.
  destruct (keyboard_interrupt_stops_run
              host_ruby_interrupted 3 1 (lit "Once upon a time")
              [lit "The meaning of life is"; lit "Hello, how are you?"]
              0 6 7 (Some (lit "Once upon a time there was"))
              (events (generate_python host_ruby_interrupted
                         (lit "Once upon a time") 50 float_0_8 0))
              eq_refl eq_refl)
    as [_ [Hout [_ Hatt]]].
  split; [exact Hout|exact Hatt].
Defined.

(** X2.  Within an iteration every call made for Implementation A (the
    checkpoint query and the nanochat calls) comes before the launch of
    Implementation B, and B is launched at most once. *)
Theorem python_precedes_ruby (H : Host) (n i : nat) (prompt : str)
    (w : World H) :
  exists before after,
    events (compare_prompt H n i prompt w) = before ++ after
    /\ filter is_run before = []
    /\ filter is_python_call after = []
    /\ (List.length (filter is_run after) <= 1)%nat.
Proof.
  rewrite compare_prompt_run.
  pose proof (generate_python_never_runs H prompt 50 float_0_8 w) as Hp.
  destruct (generate_python H prompt 50 float_0_8 w) as [[[po|e] w1] t1];
    unfold events in Hp |- *; cbn [snd] in Hp |- *.
  - destruct (generate_ruby_runs_once H prompt 50 float_0_8 w1)
      as [Hr [Hc _]].
    exists (step_head n i prompt ++ t1 ++ step_middle po).
    destruct (generate_ruby H prompt 50 float_0_8 w1) as [[[ro|e] w2] t2];
      unfold events in Hr, Hc; cbn [snd] in Hr, Hc |- *.
    + exists (t2 ++ step_tail prompt po ro).
      destruct (report_has_no_calls prompt po ro) as [Hrep1 [Hrep2 _]].
      unfold step_head, step_middle, step_tail.
      rewrite !filter_app, Hp, Hr, Hc, Hrep1, Hrep2, <- !app_assoc.
      repeat split. cbn. lia.
    + exists t2. unfold step_head, step_middle.
      rewrite !filter_app, Hp, Hr, Hc, <- !app_assoc.
      repeat split. cbn. lia.
  - exists (step_head n i prompt ++ t1), [].
    unfold step_head. rewrite filter_app, Hp, app_nil_r.
    repeat split. cbn. lia.
Qed.

(** X3.  Whatever the host does, the prompts whose iteration the run
    starts are a leading part of the list, in list order: none is
    skipped, repeated or taken out of turn. *)
Theorem attempted_is_leading_part (H : Host) (w : World H) :
  exists k, attempted (snd (main H w)) = firstn k test_prompts.
Proof.
  destruct (main_events H w) as [report [-> [Hrep _]]].
  rewrite !attempted_app, Hrep, app_nil_r. cbn [attempted app].
  apply compare_loop_attempts_prefix.
Qed.

(** X4.  A run that completes ([compare_outputs] returns) has attempted
    every prompt of the list in order, looked for the checkpoint three
    times and launched the child three times.  An exit status of 0 means
    such a full pass, unless a collaborator ended the process itself
    through [SystemExit] with status 0. *)
Theorem clean_exit_means_full_pass (H : Host) (w : World H) :
  (outcome (compare_outputs H w) = Ret tt ->
   attempted (snd (main H w)) = test_prompts
   /\ List.length (filter is_run (snd (main H w))) = 3%nat
   /\ List.length (filter is_exists (snd (main H w))) = 3%nat)
  /\ (exit_code H w = 0%Z ->
      outcome (compare_outputs H w) = Ret tt
      \/ exists arg,
           outcome (compare_outputs H w) = Raise (SystemExit arg)
           /\ status_of_exit arg = 0%Z).
Proof.
  split.
  - intros Hdone.
    assert (Hret : outcome (compare_loop H (List.length test_prompts) 1
                              test_prompts w) = Ret tt).
    { rewrite compare_outputs_run in Hdone. exact Hdone. }
    destruct (compare_loop_returns H test_prompts (List.length test_prompts)
                1 w tt Hret) as [Hatt Hrun].
    destruct (compare_loop_counts H test_prompts (List.length test_prompts) 1 w)
      as [Hex _].
    destruct (main_events H w) as [report [-> [Hrep [Hrep1 Hrep2]]]].
    rewrite !attempted_app, !filter_app, !length_app, Hrep, Hrep1, Hrep2,
      Hatt, Hrun, Hex, Hatt.
    repeat split.
  - unfold exit_code. rewrite main_run.
    destruct (outcome (compare_outputs H w)) as [[]|e]; cbn [fst];
      [left; reflexivity|].
    destruct e; cbn [final_status]; try discriminate.
    intros Hzero. right. exists arg. split; [reflexivity|exact Hzero].
Qed.

Lemma clean_exit_means_full_pass_witness :
  outcome (compare_outputs host_all_fail 0) = Ret tt
  /\ attempted (snd (main host_all_fail 0)) = test_prompts.
Proof.
  assert (Hdone : outcome (compare_outputs host_all_fail 0) = Ret tt)
    by reflexivity.
  split; [exact Hdone|].
  destruct (clean_exit_means_full_pass host_all_fail 0) as [Hfull _].
  destruct (Hfull Hdone) as [Hatt _]. exact Hatt.
Defined.



(** ** What agreement means *)

Section Prefix.

Lemma prefix_length_gt (n : nat) (a b : str) :
  (n < common_prefix_length a b)%nat
  <-> (n < len a)%nat /\ (n < len b)%nat
      /\ firstn (S n) a = firstn (S n) b.
Proof.
  unfold len. revert n b. induction a as [|c a IH]; intros n b.
  - cbn. split; [lia|intros [Hn _]; lia].
  - destruct b as [|d b].
    + cbn. split; [lia|intros [_ [Hn _]]; lia].
    + cbn [common_prefix_length List.length].
      destruct (N.eqb_spec c d) as [->|Hne].
      * destruct n as [|n].
        -- split; [intros _|intros _; lia].
           repeat split; try lia.
        -- rewrite <- Nat.succ_lt_mono, (IH n b).
           cbn [firstn]. split.
           ++ intros [Ha [Hb Heq]]. repeat split; try lia. now rewrite Heq.
           ++ intros [Ha [Hb Heq]]. injection Heq as Heq.
              repeat split; try lia. exact Heq.
      * split; [lia|]. intros [_ [_ Heq]]. cbn [firstn] in Heq.
        injection Heq as Hcd _. contradiction.
Qed.

(** Past their common prefix the two strings differ at once, unless one
    of them ends there. *)
Lemma common_prefix_stops (a b : str) :
  match skipn (common_prefix_length a b) a,
        skipn (common_prefix_length a b) b with
  | c :: _, d :: _ => c <> d
  | _, _ => True
  end.
Proof.
  revert b. induction a as [|c a IH]; intros b; [exact I|].
  destruct b as [|d b]; [exact I|].
  cbn [common_prefix_length].
  destruct (N.eqb_spec c d) as [->|Hne]; [apply IH|exact Hne].
Qed.

End Prefix.

(** X6.  When both outputs are present, agreement is reported exactly
    when both are longer than the prompt and coincide on their first
    [len(prompt) + 1] characters.  The text of the prompt plays no part:
    a prompt of the same length gives the same report. *)
Theorem agreement_means_shared_continuation
    (H : Host) (prompt a b : str) (w : World H) :
  (reports_agreement (events (analysis H prompt (Some a) (Some b) w)) = true
   <-> (len prompt < len a)%nat /\ (len prompt < len b)%nat
       /\ firstn (S (len prompt)) a = firstn (S (len prompt)) b)
  /\ (forall prompt',
         len prompt' = len prompt ->
         analysis H prompt' (Some a) (Some b) w
         = analysis H prompt (Some a) (Some b) w).
Proof.
  split.
  - rewrite analysis_run. unfold events. cbn [snd].
    rewrite reports_agreement_report, Nat.ltb_lt.
    apply prefix_length_gt.
  - intros prompt' Hlen. rewrite !analysis_run.
    unfold comparison_report. rewrite Hlen. reflexivity.
Qed.

(** X7.  Two identical non-empty outputs agree only if they are longer
    than the prompt: the reported prefix is then the whole output.  When
    they are not longer, for instance when both implementations return
    the prompt and nothing else, the harness says they diverge
    immediately. *)
Theorem identical_outputs_need_a_continuation
    (H : Host) (prompt s : str) (w : World H) :
  s <> [] ->
  ((len prompt < len s)%nat ->
   events (analysis H prompt (Some s) (Some s) w)
   = [Print (SharePrefix (len s));
      Print (PythonLength (len s)); Print (RubyLength (len s))])
  /\ ((len s <= len prompt)%nat ->
      events (analysis H prompt (Some s) (Some s) w)
      = [Print DivergeImmediately;
         Print (PythonLength (len s)); Print (RubyLength (len s))]).
Proof.
  intros Hne. rewrite analysis_run. unfold events. cbn [snd].
  destruct s as [|c s]; [contradiction|].
  unfold comparison_report. rewrite common_prefix_length_refl.
  split; intros Hlen.
  - apply Nat.ltb_lt in Hlen. rewrite Hlen. reflexivity.
  - apply Nat.ltb_ge in Hlen. rewrite Hlen. reflexivity.
Qed.

Lemma identical_outputs_need_a_continuation_witness :
  lit "Once upon a time" <> []
  /\ events (analysis host_both_answer (lit "Once upon a time")
               (Some (lit "Once upon a time")) (Some (lit "Once upon a time")) 7)
     = [Print DivergeImmediately; Print (PythonLength 16); Print (RubyLength 16)].
Proof.
  assert (Hne : lit "Once upon a time" <> []) by discriminate.
  split; [exact Hne|].
  destruct (identical_outputs_need_a_continuation
              host_both_answer (lit "Once upon a time")
              (lit "Once upon a time") 7 Hne) as [_ Hshort].
  apply Hshort. vm_compute. lia.
Defined.

(** X12.  [os.path.commonprefix] of two strings does not depend on their
    order and returns their longest common prefix: both strings start
    with it, and what follows it in the two strings starts with
    different characters unless one of them ends there. *)
Theorem commonprefix_is_longest (a b : str) :
  exists p ra rb,
    commonprefix [a; b] = Ret p
    /\ commonprefix [b; a] = Ret p
    /\ a = p ++ ra /\ b = p ++ rb
    /\ match ra, rb with
       | c :: _, d :: _ => c <> d
       | _, _ => True
       end.
Proof.
  exists (firstn (common_prefix_length a b) a),
         (skipn (common_prefix_length a b) a),
         (skipn (common_prefix_length a b) b).
  split; [apply commonprefix_pair|].
  split.
  { rewrite commonprefix_pair, (common_prefix_length_comm b a).
    now rewrite common_prefix_shared. }
  split; [now rewrite firstn_skipn|].
  split; [rewrite common_prefix_shared; now rewrite firstn_skipn|].
  apply common_prefix_stops.
Qed.

(** ** The text Implementation B returns *)

Section Trimmed.

Lemma lstrip_head (s : str) (c : char) (r : str) :
  lstrip s = c :: r -> isspace c = false.
Proof.
  induction s as [|d s IH]; [discriminate|].
  cbn [lstrip]. destruct (isspace d) eqn:Hd; [exact IH|].
  intros Heq. injection Heq as <- _. exact Hd.
Qed.

Lemma lstrip_nil (s : str) : lstrip s = [] -> forallb isspace s = true.
Proof.
  induction s as [|d s IH]; [reflexivity|].
  cbn [lstrip forallb]. destruct (isspace d); [exact IH|discriminate].
Qed.

Lemma lstrip_keep (c : char) (r : str) :
  isspace c = false -> lstrip (c :: r) = c :: r.
Proof. intros Hc. cbn [lstrip]. rewrite Hc. reflexivity. Qed.

Lemma lstrip_app_keep (x : str) (c : char) :
  isspace c = false -> exists u, lstrip (x ++ [c]) = u ++ [c].
Proof.
  intros Hc. induction x as [|d x [u Hu]].
  - exists []. cbn [app lstrip]. rewrite Hc. reflexivity.
  - cbn [app lstrip]. destruct (isspace d).
    + exists u. exact Hu.
    + exists (d :: x). reflexivity.
Qed.

Lemma strip_head (s : str) (c : char) (r : str) :
  strip s = c :: r -> isspace c = false.
Proof.
  unfold strip, rstrip. destruct (lstrip s) as [|d t] eqn:Ht; [discriminate|].
  pose proof (lstrip_head s d t Ht) as Hd.
  cbn [rev]. destruct (lstrip_app_keep (rev t) d Hd) as [u ->].
  rewrite rev_app_distr. cbn [rev app].
  intros Heq. injection Heq as <- _. exact Hd.
Qed.

Lemma strip_last (s : str) (r : str) (c : char) :
  strip s = r ++ [c] -> isspace c = false.
Proof.
  unfold strip, rstrip. intros Heq.
  apply (f_equal (@rev char)) in Heq.
  rewrite rev_involutive, rev_app_distr in Heq. cbn [rev app] in Heq.
  exact (lstrip_head _ _ _ Heq).
Qed.

Lemma strip_nil (s : str) : strip s = [] -> forallb isspace s = true.
Proof.
  unfold strip, rstrip. destruct (lstrip s) as [|d t] eqn:Ht.
  - intros _. apply lstrip_nil. exact Ht.
  - pose proof (lstrip_head s d t Ht) as Hd.
    cbn [rev]. destruct (lstrip_app_keep (rev t) d Hd) as [u ->].
    rewrite rev_app_distr. discriminate.
Qed.

Lemma strip_fixed (s : str) : strip (strip s) = strip s.
Proof.
  destruct (strip s) as [|c r] eqn:Hs; [reflexivity|].
  pose proof (strip_head s c r Hs) as Hc.
  destruct (@exists_last char (c :: r)) as [r0 [e He]]; [discriminate|].
  assert (Hlast : isspace e = false).
  { apply (strip_last s r0 e). rewrite Hs. exact He. }
  unfold strip. rewrite (lstrip_keep c r Hc). unfold rstrip.
  rewrite He, rev_app_distr. cbn [rev app].
  rewrite (lstrip_keep e (rev r0) Hlast).
  cbn [rev]. rewrite rev_involutive. reflexivity.
Qed.

Lemma strip_shorter (s : str) : (len (strip s) <= len s)%nat.
Proof.
  destruct (strip_split s) as [l [r [Hs _]]].
  unfold len. rewrite Hs at 2. rewrite !length_app. lia.
Qed.

End Trimmed.

(** X8.  When the child exits with status 0, the text [generate_ruby]
    returns neither starts nor ends with white space, is not changed by
    stripping again, is no longer than what the child wrote, and is empty
    exactly when the child wrote nothing but white space. *)
Theorem ruby_text_is_trimmed
    (H : Host) (prompt : str) (max_tokens : Z) (temperature : pyfloat)
    (w w1 : World H) (done : CompletedProcess) :
  subprocess_run H (ruby_argv H prompt max_tokens temperature) 60 w
  = (Ret done, w1) ->
  returncode done = 0%Z ->
  exists text,
    outcome (generate_ruby H prompt max_tokens temperature w) = Ret (Some text)
    /\ (text = [] <-> forallb isspace (stdout done) = true)
    /\ (forall c r, text = c :: r -> isspace c = false)
    /\ (forall r c, text = r ++ [c] -> isspace c = false)
    /\ strip text = text
    /\ (len text <= len (stdout done))%nat.
Proof.
  intros Hrun Hzero. exists (strip (stdout done)).
  split.
  { rewrite generate_ruby_run, Hrun. unfold outcome.
    cbn [fst ruby_result]. rewrite Hzero. reflexivity. }
  split; [split; [apply strip_nil|apply strip_blank]|].
  split; [intros c r; apply strip_head|].
  split; [intros r c; apply strip_last|].
  split; [apply strip_fixed|apply strip_shorter].
Qed.

Lemma ruby_text_is_trimmed_witness :
  returncode (mkCompleted 0 (lit "Once upon a time there lived" ++ [newline]) [])
  = 0%Z
  /\ exists text,
       outcome (generate_ruby host_both_answer (lit "Once upon a time")
                  50 float_0_8 6) = Ret (Some text)
       /\ strip text = text.
Proof.
  split; [reflexivity|].
  destruct (ruby_text_is_trimmed
              host_both_answer (lit "Once upon a time") 50 float_0_8 6 7
              (mkCompleted 0 (lit "Once upon a time there lived" ++ [newline]) [])
              eq_refl eq_refl)
    as [text [Hout [_ [_ [_ [Hfix _]]]]]].
  exists text. split; [exact Hout|exact Hfix].
Defined.

(** ** The prompt inside the Ruby program *)

Section Quoting.

Variable isprintable : char -> bool.

Lemma plain_printable_spec (c : char) :
  plain_printable c = true ->
  (32 <= c)%N /\ (c < 127)%N /\ c <> 39%N /\ c <> 92%N.
Proof.
  unfold plain_printable. rewrite !andb_true_iff, !negb_true_iff.
  rewrite N.leb_le, N.ltb_lt, !N.eqb_neq. tauto.
Qed.

Lemma repr_char_plain (c : char) :
  plain_printable c = true -> repr_char isprintable 39%N c = [c].
Proof.
  intros Hc. destruct (plain_printable_spec c Hc) as [Hlo [Hhi [Hq Hb]]].
  unfold repr_char.
  destruct (N.eqb_spec c 39) as [E|_]; [contradiction|].
  destruct (N.eqb_spec c 92) as [E|_]; [contradiction|]. cbn [orb].
  destruct (N.eqb_spec c 9) as [E|_]; [lia|].
  destruct (N.eqb_spec c 10) as [E|_]; [lia|].
  destruct (N.eqb_spec c 13) as [E|_]; [lia|].
  destruct (N.ltb_spec c 32) as [E|_]; [lia|].
  destruct (N.eqb_spec c 127) as [E|_]; [lia|]. cbn [orb].
  destruct (N.ltb_spec c 127) as [_|E]; [reflexivity|lia].
Qed.

Lemma quote_of_plain (s : str) :
  forallb plain_printable s = true -> quote_of s = 39%N.
Proof.
  intros Hall. unfold quote_of.
  assert (Hno : existsb (N.eqb 39) s = false).
  { induction s as [|c s IH]; [reflexivity|].
    cbn [forallb existsb] in Hall |- *. apply andb_true_iff in Hall.
    destruct Hall as [Hc Hs].
    destruct (plain_printable_spec c Hc) as [_ [_ [Hq _]]].
    destruct (N.eqb_spec 39 c) as [E|_]; [congruence|]. exact (IH Hs). }
  rewrite Hno. reflexivity.
Qed.

(** A text of printable ASCII without single quote or backslash is
    written as it is, between single quotes. *)
Lemma repr_plain (s : str) :
  forallb plain_printable s = true ->
  repr isprintable s = [39%N] ++ s ++ [39%N].
Proof.
  intros Hall. unfold repr. cbv zeta. rewrite (quote_of_plain s Hall).
  do 2 f_equal.
  induction s as [|c s IH]; [reflexivity|].
  cbn [forallb] in Hall. apply andb_true_iff in Hall.
  destruct Hall as [Hc Hs].
  cbn [flat_map]. rewrite (repr_char_plain c Hc), (IH Hs). reflexivity.
Qed.

Lemma hex_digit_printable (d : N) : (32 <= hex_digit d)%N.
Proof. unfold hex_digit. destruct (N.ltb_spec d 10); lia. Qed.

Lemma hex_printable (width : nat) (c x : N) :
  In x (hex width c) -> (32 <= x)%N.
Proof.
  revert c. induction width as [|width IH]; intros c; [intros []|].
  cbn [hex]. rewrite in_app_iff. intros [Hin|[<-|[]]].
  - exact (IH _ Hin).
  - apply hex_digit_printable.
Qed.

Lemma repr_char_printable (quote c x : char) :
  (32 <= quote)%N -> In x (repr_char isprintable quote c) -> (32 <= x)%N.
Proof.
  intros Hq. unfold repr_char.
  destruct ((c =? quote) || (c =? 92))%N eqn:E1.
  { apply orb_true_iff in E1. rewrite !N.eqb_eq in E1.
    intros [<-|[<-|[]]]; lia. }
  destruct (c =? 9)%N; [cbn; intros [<-|[<-|[]]]; lia|].
  destruct (c =? 10)%N; [cbn; intros [<-|[<-|[]]]; lia|].
  destruct (c =? 13)%N; [cbn; intros [<-|[<-|[]]]; lia|].
  destruct ((c <? 32) || (c =? 127))%N eqn:E2.
  { rewrite in_app_iff. intros [Hin|Hin]; [|exact (hex_printable _ _ _ Hin)].
    cbn in Hin. destruct Hin as [<-|[<-|[]]]; lia. }
  apply orb_false_iff in E2. destruct E2 as [E2 _]. apply N.ltb_ge in E2.
  destruct (c <? 127)%N; [intros [<-|[]]; exact E2|].
  destruct (isprintable c); [intros [<-|[]]; exact E2|].
  destruct (c <=? 255)%N;
    [|destruct (c <=? 65535)%N];
    rewrite in_app_iff; (intros [Hin|Hin]; [|exact (hex_printable _ _ _ Hin)]);
    cbn in Hin; destruct Hin as [<-|[<-|[]]]; lia.
Qed.

Lemma hex_digit_ascii (d : N) :
  (d < 16)%N -> (32 <= hex_digit d < 127)%N.
Proof. intros Hd. unfold hex_digit. destruct (N.ltb_spec d 10); lia. Qed.

Lemma hex_ascii (width : nat) (c x : N) :
  In x (hex width c) -> (32 <= x < 127)%N.
Proof.
  revert c. induction width as [|width IH]; intros c; [intros []|].
  cbn [hex]. rewrite in_app_iff. intros [Hin|[<-|[]]].
  - exact (IH _ Hin).
  - apply hex_digit_ascii. apply N.mod_lt. discriminate.
Qed.

(** A character of [repr_char]'s output is printable ASCII, or a
    character above DEL that [isprintable] accepts. *)
Lemma repr_char_raw (quote c x : char) :
  (32 <= quote < 127)%N ->
  In x (repr_char isprintable quote c) ->
  (32 <= x < 127)%N \/ ((127 < x)%N /\ isprintable x = true).
Proof.
  intros Hq. unfold repr_char.
  destruct ((c =? quote) || (c =? 92))%N eqn:E1.
  { apply orb_true_iff in E1. rewrite !N.eqb_eq in E1.
    intros [<-|[<-|[]]]; left; lia. }
  destruct (c =? 9)%N; [cbn; intros [<-|[<-|[]]]; left; lia|].
  destruct (c =? 10)%N; [cbn; intros [<-|[<-|[]]]; left; lia|].
  destruct (c =? 13)%N; [cbn; intros [<-|[<-|[]]]; left; lia|].
  destruct ((c <? 32) || (c =? 127))%N eqn:E2.
  { rewrite in_app_iff.
    intros [Hin|Hin]; [|left; exact (hex_ascii _ _ _ Hin)].
    cbn in Hin. destruct Hin as [<-|[<-|[]]]; left; lia. }
  apply orb_false_iff in E2. destruct E2 as [E2 E3].
  apply N.ltb_ge in E2. apply N.eqb_neq in E3.
  destruct (N.ltb_spec c 127) as [Hlt|Hge]; [intros [<-|[]]; left; lia|].
  destruct (isprintable c) eqn:Hp;
    [intros [<-|[]]; right; split; [lia|exact Hp]|].
  destruct (c <=? 255)%N;
    [|destruct (c <=? 65535)%N];
    rewrite in_app_iff;
    (intros [Hin|Hin]; [|left; exact (hex_ascii _ _ _ Hin)]);
    cbn in Hin; destruct Hin as [<-|[<-|[]]]; left; lia.
Qed.

Lemma repr_raw (s : str) (x : char) :
  In x (repr isprintable s) ->
  (32 <= x < 127)%N \/ ((127 < x)%N /\ isprintable x = true).
Proof.
  unfold repr. cbv zeta.
  assert (Hq : (32 <= quote_of s < 127)%N).
  { unfold quote_of. destruct (_ && _); lia. }
  rewrite !in_app_iff. intros [[<-|[]]|[Hin|[<-|[]]]]; try (left; exact Hq).
  apply in_flat_map in Hin. destruct Hin as [c [_ Hin]].
  exact (repr_char_raw _ _ _ Hq Hin).
Qed.

Lemma repr_printable (s : str) (x : char) :
  In x (repr isprintable s) -> (32 <= x)%N.
Proof.
  unfold repr. cbv zeta.
  assert (Hq : (32 <= quote_of s)%N).
  { unfold quote_of. destruct (_ && _); lia. }
  rewrite !in_app_iff. intros [[<-|[]]|[Hin|[<-|[]]]]; try exact Hq.
  apply in_flat_map in Hin. destruct Hin as [c [_ Hin]].
  exact (repr_char_printable _ _ _ Hq Hin).
Qed.

End Quoting.

(** X10.  For every prompt made of printable ASCII characters other than
    the single quote and the backslash, the Ruby program receives the
    prompt verbatim between single quotes: that is the line of the
    [engine.generate] call that carries the prompt. *)
Theorem plain_prompt_is_quoted_verbatim
    (H : Host) (prompt : str) (max_tokens : Z) (temperature : pyfloat) :
  forallb plain_printable prompt = true ->
  repr (isprintable_nonascii H) prompt = [39%N] ++ prompt ++ [39%N]
  /\ nth 21 (script_lines H prompt max_tokens temperature) []
     = lit "  '" ++ prompt ++ lit "',".
Proof.
  intros Hplain.
  pose proof (repr_plain (isprintable_nonascii H) prompt Hplain) as Hrepr.
  split; [exact Hrepr|].
  unfold script_lines. cbn [nth]. rewrite Hrepr.
  change (lit "  '") with (lit "  " ++ [39%N]).
  change (lit "',") with ([39%N] ++ lit ",").
  rewrite <- !app_assoc. reflexivity.
Qed.

Lemma plain_prompt_is_quoted_verbatim_witness :
  forallb plain_printable (lit "Tell me a joke: ") = true
  /\ nth 21 (script_lines host_both_answer (lit "Tell me a joke: ") 50 float_0_8)
         []
     = lit "  'Tell me a joke: ',".
Proof.
  split; [reflexivity|].
  apply (plain_prompt_is_quoted_verbatim
           host_both_answer (lit "Tell me a joke: ") 50 float_0_8 eq_refl).
Defined.

Section Lines.

Lemma no_newline_app (a b : str) :
  existsb (N.eqb newline) a = false ->
  existsb (N.eqb newline) b = false ->
  existsb (N.eqb newline) (a ++ b) = false.
Proof.
  intros Ha Hb. rewrite existsb_app. apply orb_false_iff. split; assumption.
Qed.

Lemma no_newline_count (l : str) :
  existsb (N.eqb newline) l = false -> filter (N.eqb newline) l = [].
Proof.
  induction l as [|c l IH]; [reflexivity|].
  cbn [existsb filter]. destruct (N.eqb newline c); [discriminate|exact IH].
Qed.

Lemma count_newlines_unlines (ls : list str) :
  Forall (fun l => existsb (N.eqb newline) l = false) ls ->
  count_newlines (unlines ls) = List.length ls.
Proof.
  unfold count_newlines, unlines.
  induction 1 as [|l ls Hl _ IH]; [reflexivity|].
  cbn [flat_map]. rewrite !filter_app. unfold str, char in *.
  rewrite (no_newline_count l Hl), !length_app, IH. reflexivity.
Qed.

Lemma uint_no_newline (d : Decimal.uint) :
  existsb (N.eqb newline) (lit (NilEmpty.string_of_uint d)) = false.
Proof. induction d; cbn [NilEmpty.string_of_uint lit existsb]; auto. Qed.

Lemma int_no_newline (d : Decimal.int) :
  existsb (N.eqb newline) (lit (NilZero.string_of_int d)) = false.
Proof.
  destruct d as [d|d]; cbn [NilZero.string_of_int lit existsb];
    destruct d; try reflexivity;
    cbn [NilZero.string_of_uint orb]; try apply uint_no_newline;
    exact (uint_no_newline _).
Qed.

Lemma repr_no_newline (isprintable : char -> bool) (s : str) :
  existsb (N.eqb newline) (repr isprintable s) = false.
Proof.
  destruct (existsb (N.eqb newline) (repr isprintable s)) eqn:E;
    [|reflexivity].
  apply existsb_exists in E. destruct E as [x [Hin Hx]].
  apply N.eqb_eq in Hx. subst x.
  apply repr_printable in Hin. unfold newline in Hin. lia.
Qed.

End Lines.

Ltac no_newline :=
  first [ reflexivity
        | apply repr_no_newline
        | apply int_no_newline
        | apply uint_no_newline
        | apply no_newline_app; no_newline ].

(** X11.  Whatever the prompt, its [repr] contains no ASCII control
    character (nothing below U+0020 and no DEL), in particular no line
    feed, and every character above DEL it contains is one that
    [str.isprintable] accepts; so, [str.isprintable] being false on
    U+0080 to U+009F, it contains no control character at all.  The
    numbers written into the Ruby program contain no line feed either:
    the program always has the same 28 line feeds, and the prompt cannot
    leave the line of the [engine.generate] call that carries it. *)
Theorem prompt_stays_on_its_line
    (H : Host) (prompt : str) (max_tokens : Z) (temperature : pyfloat) :
  (forall x,
      In x (repr (isprintable_nonascii H) prompt) ->
      (32 <= x)%N /\ x <> 127%N
      /\ ((127 < x)%N -> isprintable_nonascii H x = true))
  /\ ((forall c, (128 <= c <= 159)%N -> isprintable_nonascii H c = false) ->
      forall x,
        In x (repr (isprintable_nonascii H) prompt) ->
        (32 <= x < 127)%N \/ (159 < x)%N)
  /\ count_newlines (script H prompt max_tokens temperature) = 28%nat.
Proof.
  split; [|split].
  - intros x Hin. apply repr_raw in Hin.
    destruct Hin as [Hascii|[Hhigh Hp]].
    + repeat split; try lia.
    + repeat split; try lia. intros _. exact Hp.
  - intros Hc1 x Hin. apply repr_raw in Hin.
    destruct Hin as [Hascii|[Hhigh Hp]]; [left; exact Hascii|].
    right. destruct (N.le_gt_cases x 159) as [Hle|Hgt]; [|exact Hgt].
    rewrite (Hc1 x) in Hp by lia. discriminate Hp.
  - unfold script. rewrite count_newlines_unlines; [reflexivity|].
    unfold script_lines, str_of_int, str_of_float.
    repeat (apply Forall_cons; [cbv beta; no_newline|]).
    apply Forall_nil.
Qed.

Lemma prompt_stays_on_its_line_witness :
  (forall c, (128 <= c <= 159)%N -> sample_isprintable c = false)
  /\ forall x,
       In x (repr sample_isprintable [72; 105; 133; 10; 39]%N) ->
       (32 <= x < 127)%N \/ (159 < x)%N.
Proof.
  assert (Hc1 : forall c, (128 <= c <= 159)%N -> sample_isprintable c = false).
  { intros c [Hlo Hhi]. unfold sample_isprintable.
    apply N.leb_le in Hlo. rewrite Hlo.
    assert (Hhi' : (c <=? 160)%N = true) by (apply N.leb_le; lia).
    rewrite Hhi'. reflexivity. }
  split; [exact Hc1|].
  destruct (prompt_stays_on_its_line
              host_both_answer [72; 105; 133; 10; 39]%N 50 float_0_8)
    as [_ [Hraw _]].
  exact (Hraw Hc1).
Defined.

(** X13.  When both outputs are non-empty the analysis prints a verdict
    followed by the two lengths, whatever the verdict.  A reported
    prefix length is greater than the length of the prompt and at most
    the length of either output, and exchanging the two outputs changes
    neither the verdict nor the reported prefix length. *)
Theorem lengths_always_reported
    (H : Host) (prompt a b : str) (w : World H) :
  a <> [] -> b <> [] ->
  exists verdict,
    events (analysis H prompt (Some a) (Some b) w)
    = [Print verdict; Print (PythonLength (len a)); Print (RubyLength (len b))]
    /\ events (analysis H prompt (Some b) (Some a) w)
       = [Print verdict; Print (PythonLength (len b)); Print (RubyLength (len a))]
    /\ (verdict = DivergeImmediately
        \/ exists k,
             verdict = SharePrefix k
             /\ (len prompt < k)%nat /\ (k <= len a)%nat /\ (k <= len b)%nat).
Proof.
  intros Ha Hb. rewrite !analysis_run. unfold events. cbn [snd].
  destruct a as [|c a]; [contradiction|].
  destruct b as [|d b]; [contradiction|].
  unfold comparison_report.
  rewrite (common_prefix_length_comm (d :: b) (c :: a)).
  eexists. split; [reflexivity|]. split; [reflexivity|].
  destruct (Nat.ltb_spec (len prompt) (common_prefix_length (c :: a) (d :: b)))
    as [Hlt|Hge]; [right|left; reflexivity].
  eexists. split; [reflexivity|]. split; [exact Hlt|].
  split; [apply common_prefix_length_le|].
  rewrite common_prefix_length_comm. apply common_prefix_length_le.
Qed.

Lemma lengths_always_reported_witness :
  lit "Once upon a time there was" <> []
  /\ lit "Once upon a time there lived" <> []
  /\ exists verdict,
       events (analysis host_both_answer (lit "Once upon a time")
                 (Some (lit "Once upon a time there was"))
                 (Some (lit "Once upon a time there lived")) 7)
       = [Print verdict; Print (PythonLength 26); Print (RubyLength 28)].
Proof.
  assert (Ha : lit "Once upon a time there was" <> []) by discriminate.
  assert (Hb : lit "Once upon a time there lived" <> []) by discriminate.
  split; [exact Ha|]. split; [exact Hb|].
  destruct (lengths_always_reported
              host_both_answer (lit "Once upon a time")
              (lit "Once upon a time there was")
              (lit "Once upon a time there lived") 7 Ha Hb)
    as [verdict [Hev _]].
  exists verdict. exact Hev.
Defined.
